(** * Dynamic inventory: Terraform outputs to an Ansible inventory

    A shallow embedding of [ansible/inventory/dynamic.py] (class
    [TerraformInventory]) and the properties of its two queries.

    - JSON values as produced by Python's [json.loads]: objects are
      insertion-ordered dictionaries, kept as association lists; a Python
      [str] is a [string], a sequence of 8-bit characters;
    - Python's dynamic operations on such values ([in], subscripting,
      [.get], [.keys], [len], truthiness), each with the exception it
      raises on a value of the wrong type;
    - the instance attribute [self.inventory] as the state of a small state
      and exception monad: a mutation made before an exception is raised
      stays in the state;
    - [json.loads] itself and the external [terraform output -json] process
      are not code of the script: the decoder is a section variable and the
      process is a field of the [world] the script runs in;
    - [main] from the parsed arguments on: what it prints is the document
      handed to [json.dumps], or the usage text of the parser. *)

From Stdlib Require Import ZArith String Ascii List Bool Lia.
From Stdlib Require Import DecimalString DecimalNat.
From Stdlib Require Import Floats.SpecFloat.
Import ListNotations.

Open Scope string_scope.
Open Scope list_scope.

(** ** JSON values *)

#[local] Set Warnings "-register-all".

(** What [json.loads] builds: [None], [bool], [int], [float], [str], [list]
    and [dict] with string keys. *)
Inductive json : Type :=
| JNull
| JBool (b : bool)
| JInt (z : Z)
| JFloat (f : spec_float)
| JStr (s : string)
| JList (l : list json)
| JDict (d : list (string * json)).

(** A Python [dict] with string keys, in insertion order. *)
Definition dict : Type := list (string * json).

Fixpoint dict_get (k : string) (d : dict) : option json :=
  match d with
  | [] => None
  | (k', v) :: d' => if String.eqb k k' then Some v else dict_get k d'
  end.

(** [d[k] = v]: an existing key keeps its position, a new key goes last. *)
Fixpoint dict_set (k : string) (v : json) (d : dict) : dict :=
  match d with
  | [] => [(k, v)]
  | (k', v') :: d' =>
      if String.eqb k k' then (k', v) :: d' else (k', v') :: dict_set k v d'
  end.

Definition dict_keys (d : dict) : list string := map fst d.

Definition dict_mem (k : string) (d : dict) : bool :=
  match dict_get k d with Some _ => true | None => false end.

(** ** Exceptions and results *)

Inductive exn : Type :=
| TypeError
| AttributeError
| KeyError (k : string)
| IndexError
| JSONDecodeError
| OSError.

Inductive result (A : Type) : Type :=
| Ok (a : A)
| Raise (e : exn).

Arguments Ok {A} a.
Arguments Raise {A} e.

Definition rbind {A B : Type} (r : result A) (k : A -> result B) : result B :=
  match r with
  | Ok a => k a
  | Raise e => Raise e
  end.

(** ** Python operations on JSON values *)

(** [bool(v)], as tested by [if v:]. *)
Definition truthy (v : json) : bool :=
  match v with
  | JNull => false
  | JBool b => b
  | JInt z => negb (Z.eqb z 0)
  | JFloat (S754_zero _) => false
  | JFloat _ => true
  | JStr EmptyString => false
  | JStr _ => true
  | JList [] => false
  | JList _ => true
  | JDict [] => false
  | JDict _ => true
  end.

Fixpoint is_substring (needle hay : string) : bool :=
  String.prefix needle hay
  || match hay with
     | EmptyString => false
     | String _ hay' => is_substring needle hay'
     end.

Definition str_equal (x : string) (v : json) : bool :=
  match v with
  | JStr s => String.eqb x s
  | _ => false
  end.

(** [x in c] for a string [x]: key membership in a [dict], element equality
    in a [list], substring in a [str]; [TypeError] otherwise. *)
Definition py_contains (x : string) (c : json) : result bool :=
  match c with
  | JDict d => Ok (dict_mem x d)
  | JList l => Ok (existsb (str_equal x) l)
  | JStr s => Ok (is_substring x s)
  | _ => Raise TypeError
  end.

(** [c[k]] for a string [k]: only a [dict] can be subscripted by a string. *)
Definition py_getitem (c : json) (k : string) : result json :=
  match c with
  | JDict d =>
      match dict_get k d with
      | Some v => Ok v
      | None => Raise (KeyError k)
      end
  | _ => Raise TypeError
  end.

(** [c[k] = v] for a string [k]. *)
Definition py_setitem (c : json) (k : string) (v : json) : result json :=
  match c with
  | JDict d => Ok (JDict (dict_set k v d))
  | _ => Raise TypeError
  end.

(** [c.get(k, default)]: only [dict] has the method. *)
Definition py_get (c : json) (k : string) (default : json) : result json :=
  match c with
  | JDict d =>
      match dict_get k d with
      | Some v => Ok v
      | None => Ok default
      end
  | _ => Raise AttributeError
  end.

Definition py_keys (c : json) : result (list string) :=
  match c with
  | JDict d => Ok (dict_keys d)
  | _ => Raise AttributeError
  end.

Definition py_items (c : json) : result (list (string * json)) :=
  match c with
  | JDict d => Ok d
  | _ => Raise AttributeError
  end.

Definition chars (s : string) : list json :=
  map (fun c => JStr (String c EmptyString)) (list_ascii_of_string s).

(** Iteration: the elements of a [list], the characters of a [str], the
    keys of a [dict]. *)
Definition py_iter (c : json) : result (list json) :=
  match c with
  | JList l => Ok l
  | JStr s => Ok (chars s)
  | JDict d => Ok (map JStr (dict_keys d))
  | _ => Raise TypeError
  end.

Definition py_len (c : json) : result nat :=
  match c with
  | JList l => Ok (List.length l)
  | JStr s => Ok (String.length s)
  | JDict d => Ok (List.length d)
  | _ => Raise TypeError
  end.

Definition enumerate {A : Type} (l : list A) : list (nat * A) :=
  combine (seq 0 (List.length l)) l.

(** [s.split(sep)] for a one-character separator. *)
Fixpoint split (sep : ascii) (s : string) : list string :=
  match s with
  | EmptyString => [EmptyString]
  | String c s' =>
      if Ascii.eqb c sep then EmptyString :: split sep s'
      else match split sep s' with
           | [] => [String c EmptyString]
           | w :: ws => String c w :: ws
           end
  end.

Definition py_split (c : json) (sep : ascii) : result (list string) :=
  match c with
  | JStr s => Ok (split sep s)
  | _ => Raise AttributeError
  end.

Definition py_index {A : Type} (l : list A) (i : nat) : result A :=
  match nth_error l i with
  | Some a => Ok a
  | None => Raise IndexError
  end.

(** [str(n)] for a natural number, as interpolated by an f-string. *)
Definition decimal (n : nat) : string :=
  NilEmpty.string_of_uint (Nat.to_uint n).

(** ** The inventory monad *)

(** A computation on [self.inventory]: it returns or raises, and leaves a
    (possibly modified) inventory behind in both cases. *)
Definition M (A : Type) : Type := dict -> result A * dict.

Definition ret {A : Type} (a : A) : M A := fun s => (Ok a, s).

Definition bind {A B : Type} (m : M A) (k : A -> M B) : M B :=
  fun s =>
    match m s with
    | (Ok a, s') => k a s'
    | (Raise e, s') => (Raise e, s')
    end.

Definition lift {A : Type} (r : result A) : M A := fun s => (r, s).

Definition get_self : M dict := fun s => (Ok s, s).

Definition put_self (s' : dict) : M unit := fun _ => (Ok tt, s').

Declare Scope inv_scope.
Delimit Scope inv_scope with inv.
Notation "x <- m ;; k" := (bind m (fun x => k))
  (at level 61, m at next level, right associativity) : inv_scope.
Notation "m ;; k" := (bind m (fun _ => k))
  (at level 61, right associativity) : inv_scope.
Notation "x <~ r ;; k" := (rbind r (fun x => k))
  (at level 61, r at next level, right associativity) : inv_scope.
Open Scope inv_scope.

Fixpoint for_each {A : Type} (l : list A) (body : A -> M unit) : M unit :=
  match l with
  | [] => ret tt
  | x :: l' => body x ;; for_each l' body
  end.

(** [self.inventory[g] = v] *)
Definition set_group (g : string) (v : json) : M unit :=
  fun s => (Ok tt, dict_set g v s).

(** [self.inventory['_meta']['hostvars'][host] = vars]: the two nested
    dictionaries are updated in place, so the change is seen through
    [self.inventory]. *)
Definition set_hostvars (host : string) (vars : json) : M unit :=
  fun s =>
    match py_getitem (JDict s) "_meta" with
    | Raise e => (Raise e, s)
    | Ok meta =>
        match py_getitem meta "hostvars" with
        | Raise e => (Raise e, s)
        | Ok hostvars =>
            match py_setitem hostvars host vars with
            | Raise e => (Raise e, s)
            | Ok hostvars' =>
                match meta with
                | JDict m =>
                    (Ok tt,
                     dict_set "_meta"
                       (JDict (dict_set "hostvars" hostvars' m)) s)
                | _ => (Raise TypeError, s)
                end
            end
        end
    end.

(** ** The script *)

(** The outcome of [subprocess.run(cmd, cwd=..., check=True)]: the process
    ran and exited with status 0, it exited with another status
    ([CalledProcessError]), or it could not be started (an [OSError] such as
    [FileNotFoundError], which the script does not catch). *)
Inductive process : Type :=
| Completed (stdout : string)
| CalledProcessError
| NotStarted.

(** What the script reads from its environment. *)
Record world : Type := {
  environ : string -> option string;
  terraform_output_json : string -> process
}.

(** [os.environ.get('TERRAFORM_DIR', './terraform')] *)
Definition terraform_dir (w : world) : string :=
  match environ w "TERRAFORM_DIR" with
  | Some d => d
  | None => "./terraform"
  end.

(** [TerraformInventory.__init__] *)
Definition __init__ : dict :=
  [("_meta", JDict [("hostvars", JDict [])])].

Section TerraformInventory.

(** [json.loads] on a string: [None] stands for [JSONDecodeError]. *)
Variable json_loads : string -> option json.

Definition loads (s : string) : result json :=
  match json_loads s with
  | Some v => Ok v
  | None => Raise JSONDecodeError
  end.

(** The two [except] clauses turn a failed command and an output that is
    not JSON into the empty mapping; what they print goes to the standard
    error and is not modelled. *)
Definition get_terraform_output (w : world) (terraform_dir : string)
  : result json :=
  match terraform_output_json w terraform_dir with
  | Completed stdout =>
      match loads stdout with
      | Ok v => Ok v
      | Raise JSONDecodeError => Ok (JDict [])
      | Raise e => Raise e
      end
  | CalledProcessError => Ok (JDict [])
  | NotStarted => Raise OSError
  end.

(** One of the three blocks "Process webservers / appservers /
    databases" of [parse_ansible_inventory]; they differ in the group
    name [g] and in the literal [vars] of the group. *)
Definition process_group (g : string) (group_vars : json) (children : json)
  : M unit :=
  present <- lift (has_group <~ py_contains g children ;;
                   if has_group
                   then group <~ py_getitem children g ;;
                        py_contains "hosts" group
                   else Ok false) ;;
  if present then
    names <- lift (group <~ py_getitem children g ;;
                   hosts <~ py_getitem group "hosts" ;;
                   py_keys hosts) ;;
    set_group g (JDict [("hosts", JList (map JStr names));
                        ("vars", group_vars)]) ;;
    items <- lift (group <~ py_getitem children g ;;
                   hosts <~ py_getitem group "hosts" ;;
                   py_items hosts) ;;
    for_each items (fun '(host, vars) => set_hostvars host vars)
  else ret tt.

Definition webservers_vars : json :=
  JDict [("ansible_user", JStr "ubuntu");
         ("ansible_ssh_private_key_file", JStr "~/.ssh/id_rsa");
         ("server_type", JStr "webserver")].

Definition appservers_vars : json :=
  JDict [("ansible_user", JStr "ubuntu");
         ("ansible_ssh_private_key_file", JStr "~/.ssh/id_rsa");
         ("server_type", JStr "appserver")].

Definition databases_vars : json :=
  JDict [("server_type", JStr "database")].

(** One of the two blocks "Extract web servers / app servers" of
    [_parse_individual_outputs]; they differ in the output read, the
    group written, the host name prefix and the [server_type]. *)
Definition extract_servers (output group prefix server_type : string)
    (tf_outputs : json) : M unit :=
  ips <- lift (entry <~ py_get tf_outputs output (JDict []) ;;
               py_get entry "value" (JList [])) ;;
  if truthy ips then
    n <- lift (py_len ips) ;;
    set_group group
      (JDict [("hosts",
               JList (map (fun i => JStr (prefix ++ decimal (i + 1)))
                          (seq 0 n)));
              ("vars", JDict [("ansible_user", JStr "ubuntu");
                              ("server_type", JStr server_type)])]) ;;
    elems <- lift (py_iter ips) ;;
    for_each (enumerate elems)
      (fun '(i, ip) =>
         set_hostvars (prefix ++ decimal (i + 1))
           (JDict [("ansible_host", ip); ("ansible_user", JStr "ubuntu")]))
  else ret tt.

(** The block "Extract database info" of [_parse_individual_outputs]. *)
Definition extract_database (tf_outputs : json) : M unit :=
  db_endpoint <- lift (entry <~ py_get tf_outputs "database_endpoint" (JDict []) ;;
                       py_get entry "value" JNull) ;;
  if truthy db_endpoint then
    set_group "databases"
      (JDict [("hosts", JList [JStr "database"]);
              ("vars", JDict [("server_type", JStr "database")])]) ;;
    host_vars <- lift (parts <~ py_split db_endpoint ":" ;;
                       address <~ py_index parts 0 ;;
                       engine_entry <~ py_get tf_outputs "database_engine" (JDict []) ;;
                       engine <~ py_get engine_entry "value" (JStr "postgres") ;;
                       port_entry <~ py_get tf_outputs "database_port" (JDict []) ;;
                       port <~ py_get port_entry "value" (JInt 5432) ;;
                       Ok (JDict [("ansible_host", JStr address);
                                  ("db_engine", engine);
                                  ("db_port", port)])) ;;
    set_hostvars "database" host_vars
  else ret tt.

(** The block "Add common vars" of [_parse_individual_outputs]. *)
Definition add_common_vars (tf_outputs : json) : M unit :=
  common <- lift (info <~ py_get tf_outputs "infrastructure_info" (JDict []) ;;
                  value <~ py_get info "value" (JDict []) ;;
                  environment <~ py_get value "environment" (JStr "unknown") ;;
                  info' <~ py_get tf_outputs "infrastructure_info" (JDict []) ;;
                  value' <~ py_get info' "value" (JDict []) ;;
                  region <~ py_get value' "region" (JStr "us-west-2") ;;
                  Ok (JDict [("environment", environment);
                             ("project_name", JStr "iac-solution");
                             ("aws_region", region)])) ;;
  set_group "all" (JDict [("vars", common)]).

Definition _parse_individual_outputs (tf_outputs : json) : M unit :=
  extract_servers "web_instance_public_ips" "webservers" "web-" "webserver"
    tf_outputs ;;
  extract_servers "app_instance_private_ips" "appservers" "app-" "appserver"
    tf_outputs ;;
  extract_database tf_outputs ;;
  add_common_vars tf_outputs.

(** The body of [if 'ansible_inventory' in tf_outputs:], a function of
    that one entry of the outputs. *)
Definition parse_prebuilt (entry : json) : M unit :=
  inventory_data <- lift (raw <~ py_getitem entry "value" ;;
                          match raw with
                          | JStr s => loads s
                          | _ => Ok raw
                          end) ;;
  shaped <- lift (has_all <~ py_contains "all" inventory_data ;;
                  if has_all
                  then all <~ py_getitem inventory_data "all" ;;
                       py_contains "children" all
                  else Ok false) ;;
  if shaped then
    children <- lift (all <~ py_getitem inventory_data "all" ;;
                      py_getitem all "children") ;;
    process_group "webservers" webservers_vars children ;;
    process_group "appservers" appservers_vars children ;;
    process_group "databases" databases_vars children ;;
    has_vars <- lift (all <~ py_getitem inventory_data "all" ;;
                      py_contains "vars" all) ;;
    if has_vars then
      vars <- lift (all <~ py_getitem inventory_data "all" ;;
                    py_getitem all "vars") ;;
      set_group "all" (JDict [("vars", vars)])
    else ret tt
  else ret tt.

Definition parse_ansible_inventory (tf_outputs : json) : M unit :=
  designated <- lift (py_contains "ansible_inventory" tf_outputs) ;;
  if designated then
    entry <- lift (py_getitem tf_outputs "ansible_inventory") ;;
    parse_prebuilt entry
  else
    _parse_individual_outputs tf_outputs.

(** The literal assigned to [self.inventory] when there are no outputs. *)
Definition empty_inventory : dict :=
  [("all", JDict [("hosts", JList []); ("vars", JDict [])]);
   ("_meta", JDict [("hostvars", JDict [])])].

Definition get_inventory (w : world) : M json :=
  tf_outputs <- lift (get_terraform_output w (terraform_dir w)) ;;
  (if truthy tf_outputs
   then parse_ansible_inventory tf_outputs
   else put_self empty_inventory) ;;
  inventory <- get_self ;;
  ret (JDict inventory).

Definition get_host (w : world) (hostname : string) : M json :=
  inventory <- get_inventory w ;;
  lift (meta <~ py_get inventory "_meta" (JDict []) ;;
        hostvars <~ py_get meta "hostvars" (JDict []) ;;
        py_get hostvars hostname (JDict [])).

(** What [parser.parse_args()] hands to [main]: [args.list], set by
    [--list], and [args.host], the operand of [--host] or [None]. *)
Record arguments : Type := {
  args_list : bool;
  args_host : option string
}.

(** What [main] writes to the standard output: [json.dumps(doc, indent=2)]
    for a document [doc], or the usage text of the parser. *)
Inductive printed : Type :=
| Dumped (doc : json)
| Help.

(** [main], from the parsed arguments on: a new [TerraformInventory] serves
    the one query; an exception that a query raises ends the process. *)
Definition main (w : world) (args : arguments) : result printed :=
  let inventory := __init__ in
  if args_list args then
    match get_inventory w inventory with
    | (Ok doc, _) => Ok (Dumped doc)
    | (Raise e, _) => Raise e
    end
  else
    match args_host args with
    | Some hostname =>
        if truthy (JStr hostname) then
          match get_host w hostname inventory with
          | (Ok host_vars, _) => Ok (Dumped host_vars)
          | (Raise e, _) => Raise e
          end
        else Ok Help
    | None => Ok Help
    end.

End TerraformInventory.

(** * Vocabulary of the properties *)

(** The value kept under ["_meta"]. *)
Definition meta_of (hv : dict) : json := JDict [("hostvars", JDict hv)].

(** [hostvars_are s hv]: the inventory [s] has [hv] as its
    [_meta.hostvars]. It holds of [__init__], and every statement of the
    script keeps it. *)
Definition hostvars_are (s hv : dict) : Prop :=
  dict_get "_meta" s = Some (meta_of hv).

(** [inventory.get('_meta', {}).get('hostvars', {})] when both are
    dictionaries. *)
Definition hostvars_of (s : dict) : option dict :=
  match dict_get "_meta" s with
  | Some (JDict m) =>
      match dict_get "hostvars" m with
      | Some (JDict hv) => Some hv
      | _ => None
      end
  | _ => None
  end.

(** A sequence of assignments [d[k] = v], first to last. *)
Fixpoint assign (kvs : list (string * json)) (d : dict) : dict :=
  match kvs with
  | [] => d
  | (k, v) :: kvs' => assign kvs' (dict_set k v d)
  end.

(** The inventory after the group assignments [G] and the host variable
    assignments [H]. *)
Definition commit (G H : list (string * json)) (s hv : dict) : dict :=
  dict_set "_meta" (meta_of (assign H hv)) (assign G s).

Definition group_hosts (grp : json) : list json :=
  match grp with
  | JDict d =>
      match dict_get "hosts" d with
      | Some (JList hs) => hs
      | _ => []
      end
  | _ => []
  end.

(** Every name in the ["hosts"] of a group assigned in [G] is a host
    assigned in [H]. *)
Definition covered (G H : list (string * json)) : Prop :=
  forall g grp x, In (g, grp) G -> In x (group_hosts grp) ->
    exists h, x = JStr h /\ In h (map fst H).

(** [logged PG PH m]: on an inventory with [_meta.hostvars], the computation
    [m] has a result that does not depend on the inventory, and its effect
    is a sequence of assignments to groups named in [PG] and to host
    variables of hosts named in [PH]; when it returns, the hosts of the
    groups it assigned are among the hosts it assigned. *)
Definition logged {A : Type} (PG PH : string -> Prop) (m : M A) : Prop :=
  exists r G H,
    Forall (fun kv => PG (fst kv) /\ fst kv <> "_meta") G /\
    Forall (fun kv => PH (fst kv)) H /\
    ((exists a, r = Ok a) -> covered G H) /\
    forall s hv, hostvars_are s hv -> m s = (r, commit G H s hv).

(** [runs m r G H]: on every inventory with [_meta.hostvars], [m] has the
    result [r] and the effect of the group assignments [G] and the host
    variable assignments [H]. *)
Definition runs {A : Type} (m : M A) (r : result A)
    (G H : list (string * json)) : Prop :=
  Forall (fun kv => fst kv <> "_meta") G /\
  forall s hv, hostvars_are s hv -> m s = (r, commit G H s hv).

Definition server_name (prefix : string) (i : nat) : string :=
  prefix ++ decimal (i + 1).

Definition server_vars (ip : json) : json :=
  JDict [("ansible_host", ip); ("ansible_user", JStr "ubuntu")].

(** No restriction on the groups or hosts assigned. *)
Definition any : string -> Prop := fun _ => True.

(** A world without [TERRAFORM_DIR] in which [terraform output -json]
    exits with status 0 after printing [stdout]. *)
Definition terraform_prints (stdout : string) : world :=
  {| environ := fun _ => None;
     terraform_output_json := fun _ => Completed stdout |}.

(** A world in which [terraform output -json] exits with a non-zero
    status. *)
Definition terraform_fails : world :=
  {| environ := fun _ => None;
     terraform_output_json := fun _ => CalledProcessError |}.

(** A decoder that knows the documents of a table and rejects every other
    text. *)
Definition table_loads (table : list (string * json)) (text : string)
  : option json :=
  dict_get text table.

(** [tf_outputs.get(output, {}).get('value', default)] on a mapping of
    outputs: [None] where the entry is not a mapping, on which [.get]
    raises [AttributeError]. *)
Definition output_value (tf : dict) (output : string) (default : json)
  : option json :=
  match dict_get output tf with
  | None => Some default
  | Some (JDict entry) =>
      match dict_get "value" entry with
      | Some v => Some v
      | None => Some default
      end
  | Some _ => None
  end.

(** The values that have a length and can be iterated. *)
Definition sized (v : json) : bool :=
  match v with
  | JList _ | JStr _ | JDict _ => true
  | _ => false
  end.

(** The group written by [extract_servers] for [n] addresses. *)
Definition servers_group (prefix server_type : string) (n : nat) : json :=
  JDict [("hosts", JList (map (fun i => JStr (server_name prefix i)) (seq 0 n)));
         ("vars", JDict [("ansible_user", JStr "ubuntu");
                         ("server_type", JStr server_type)])].

Definition servers_hostvars (prefix : string) (elems : list json)
  : list (string * json) :=
  map (fun x : nat * json =>
         let '(i, ip) := x in (server_name prefix i, server_vars ip))
      (enumerate elems).

(** [d.get(k, default)] on a dictionary. *)
Definition dict_get_or (k : string) (d : dict) (default : json) : json :=
  match dict_get k d with
  | Some v => v
  | None => default
  end.

(** The part of a string before the first occurrence of [sep], the whole
    string if there is none. *)
Fixpoint before_first (sep : ascii) (s : string) : string :=
  match s with
  | EmptyString => EmptyString
  | String c s' =>
      if Ascii.eqb c sep then EmptyString else String c (before_first sep s')
  end.

(** The addresses read from [output] let [extract_servers] run to its end:
    the entry is absent or a mapping, and its value is absent, falsy, or
    one of the values that have a length. *)
Definition servers_complete (tf : dict) (output : string) : bool :=
  match output_value tf output (JList []) with
  | Some v => negb (truthy v) || sized v
  | None => false
  end.

Definition is_some {A : Type} (o : option A) : bool :=
  match o with
  | Some _ => true
  | None => false
  end.

(** The outputs let [extract_database] run to its end: the entry of the
    endpoint is absent or a mapping, and its value is absent or falsy, or
    it is a string and the entries of the engine and of the port are
    absent or mappings. *)
Definition database_complete (tf : dict) : bool :=
  match output_value tf "database_endpoint" JNull with
  | Some v =>
      if truthy v then
        match v with
        | JStr _ =>
            is_some (output_value tf "database_engine" (JStr "postgres"))
            && is_some (output_value tf "database_port" (JInt 5432))
        | _ => false
        end
      else true
  | None => false
  end.

(** The value of the pre-built entry after
    [if isinstance(inventory_data, str): inventory_data = json.loads(...)]. *)
Definition decoded (json_loads : string -> option json) (raw d : json) : Prop :=
  match raw with
  | JStr s => json_loads s = Some d
  | _ => d = raw
  end.

(** A container in which the string [x] is not found by [in]. *)
Definition lacks (x : string) (c : json) : bool :=
  match c with
  | JDict d => negb (dict_mem x d)
  | JList l => negb (existsb (str_equal x) l)
  | JStr s => negb (is_substring x s)
  | _ => false
  end.

(** A decoded value on which the test
    ['all' in inventory_data and 'children' in inventory_data['all']]
    is false: a container without ["all"], or a mapping whose ["all"] is a
    container without ["children"]. *)
Definition unshaped (d : json) : bool :=
  lacks "all" d
  || match d with
     | JDict dd =>
         match dict_get "all" dd with
         | Some a => lacks "children" a
         | None => false
         end
     | _ => false
     end.

(** A sub-group of [children] on which [process_group] runs to its end:
    absent, or a mapping whose ["hosts"] is absent or a mapping. *)
Definition group_complete (children : dict) (g : string) : bool :=
  match dict_get g children with
  | None => true
  | Some (JDict group) =>
      match dict_get "hosts" group with
      | None => true
      | Some (JDict _) => true
      | Some _ => false
      end
  | Some _ => false
  end.

(** The group written by [extract_database]. *)
Definition databases_group : json :=
  JDict [("hosts", JList [JStr "database"]);
         ("vars", JDict [("server_type", JStr "database")])].

(** ** Sample snapshots *)

Definition value_of (v : json) : json := JDict [("value", v)].

(** Flat outputs only: two web addresses and a database endpoint. *)
Definition flat_outputs : dict :=
  [("web_instance_public_ips",
    value_of (JList [JStr "1.2.3.4"; JStr "5.6.7.8"]));
   ("database_endpoint", value_of (JStr "db.example.com:5432"))].

(** A pre-built inventory with one web server and inventory-wide vars. *)
Definition prebuilt_value : json :=
  JDict [("all",
          JDict [("children",
                  JDict [("webservers",
                          JDict [("hosts",
                                  JDict [("web-a",
                                          JDict [("ansible_host",
                                                  JStr "10.0.0.1")])])])]);
                 ("vars", JDict [("environment", JStr "dev")])])].

Definition prebuilt_outputs : dict :=
  [("ansible_inventory", value_of prebuilt_value)].

(** The pre-built entry together with flat outputs. *)
Definition mixed_outputs : dict :=
  ("ansible_inventory", value_of prebuilt_value) :: flat_outputs.

(** A number where the list of web addresses is expected. *)
Definition number_outputs : dict :=
  [("web_instance_public_ips", value_of (JInt 5));
   ("database_endpoint", value_of (JStr "db.example.com:5432"))].

(** A string where the mapping of [infrastructure_info] is expected. *)
Definition info_string_outputs : dict :=
  [("infrastructure_info", value_of (JStr "production"))].

(** A pre-built value whose ["all"] has ["vars"] but no ["children"]. *)
Definition vars_only_outputs : dict :=
  [("ansible_inventory",
    value_of (JDict [("all",
                      JDict [("vars",
                              JDict [("environment", JStr "dev")])])]))].

(** A pre-built value whose ["all"] is [null]. *)
Definition null_all_outputs : dict :=
  [("ansible_inventory", value_of (JDict [("all", JNull)]))].

(** A pre-built value without ["all"]. *)
Definition no_all_outputs : dict :=
  [("ansible_inventory", value_of (JDict [("hosts", JList [])]));
   ("web_instance_public_ips", value_of (JList [JStr "1.2.3.4"]))].

(** The decoder of the samples: each is the document of a text named
    after it. *)
Definition sample_loads : string -> option json :=
  table_loads
    [("flat", JDict flat_outputs);
     ("prebuilt", JDict prebuilt_outputs);
     ("mixed", JDict mixed_outputs);
     ("number", JDict number_outputs);
     ("info_string", JDict info_string_outputs);
     ("vars_only", JDict vars_only_outputs);
     ("null_all", JDict null_all_outputs);
     ("no_all", JDict no_all_outputs)].

(** ** Vocabulary of the further properties *)

(** The names of the groups that the script writes. *)
Definition group_vocabulary (g : string) : Prop :=
  g = "webservers" \/ g = "appservers" \/ g = "databases" \/ g = "all".

(** The exceptions of an operation applied to a value of the wrong type. *)
Definition type_errors (e : exn) : Prop :=
  e = TypeError \/ e = AttributeError.

(** The exceptions of the transformation: those of a value of the wrong
    type, of a designated entry without ["value"], and of a pre-built
    value that is a string and not JSON. *)
Definition parse_errors (e : exn) : Prop :=
  type_errors e \/ e = KeyError "value" \/ e = JSONDecodeError.

Definition raises_only {A : Type} (E : exn -> Prop) (r : result A) : Prop :=
  forall e, r = Raise e -> E e.

(** [tracked PG E m]: [m] is a sequence of assignments (see [runs]) to
    groups named in [PG], and it raises exceptions of [E] only. *)
Definition tracked {A : Type} (PG : string -> Prop) (E : exn -> Prop)
    (m : M A) : Prop :=
  exists r G H,
    runs m r G H /\
    Forall (fun kv => PG (fst kv)) G /\
    raises_only E r.

(** The ["hosts"] mapping of the sub-group [g] of [children], when the
    sub-group is a mapping that has one. *)
Definition prebuilt_hosts (children : dict) (g : string) : option dict :=
  match dict_get g children with
  | Some (JDict group) =>
      match dict_get "hosts" group with
      | Some (JDict hosts) => Some hosts
      | _ => None
      end
  | _ => None
  end.

Definition hosts_or_empty (children : dict) (g : string) : dict :=
  match prebuilt_hosts children g with
  | Some hosts => hosts
  | None => []
  end.

(** The group that [process_group] writes for the sub-group [g]. *)
Definition prebuilt_group (children : dict) (g : string) (group_vars : json)
  : option json :=
  match prebuilt_hosts children g with
  | Some hosts =>
      Some (JDict [("hosts", JList (map JStr (dict_keys hosts)));
                   ("vars", group_vars)])
  | None => None
  end.

Definition assignment_of (g : string) (o : option json)
  : list (string * json) :=
  match o with
  | Some v => [(g, v)]
  | None => []
  end.

(** Every host assigned in [H] is named in the ["hosts"] of a group
    assigned in [G]. *)
Definition anchored (G H : list (string * json)) : Prop :=
  forall h, In h (map fst H) ->
    exists g grp, In (g, grp) G /\ In (JStr h) (group_hosts grp).

(** [anchors gs m]: [m] is a sequence of assignments (see [runs]) that
    assigns each group at most once, groups of [gs] only, and, when it
    returns, host variables only to hosts of these groups. *)
Definition anchors {A : Type} (gs : list string) (m : M A) : Prop :=
  exists r G H,
    runs m r G H /\
    NoDup (map fst G) /\
    (forall g, In g (map fst G) -> In g gs) /\
    ((exists a, r = Ok a) -> anchored G H).

(** ** Further sample snapshots *)

(** The pre-built entry with its value given as JSON text; [more_loads]
    decodes the text to [prebuilt_value]. *)
Definition encoded_outputs : dict :=
  [("ansible_inventory", value_of (JStr "inventory text"))].

(** The pre-built entry with a string that is not JSON, beside a flat
    output. *)
Definition undecodable_outputs : dict :=
  [("ansible_inventory", value_of (JStr "not json"));
   ("web_instance_public_ips", value_of (JList [JStr "1.2.3.4"]))].

(** The pre-built entry without ["value"], beside a flat output. *)
Definition valueless_outputs : dict :=
  [("ansible_inventory", JDict [("sensitive", JBool false)]);
   ("web_instance_public_ips", value_of (JList [JStr "1.2.3.4"]))].

(** One application server address given as a string, not as a list. *)
Definition app_string_outputs : dict :=
  [("app_instance_private_ips", value_of (JStr "10.1"))].

(** A list where the endpoint string is expected. *)
Definition endpoint_list_outputs : dict :=
  [("database_endpoint", value_of (JList [JStr "db.example.com:5432"]))].

(** A pre-built value in which the host ["shared"] is listed by two
    sub-groups, and [webservers] declares variables of its own. *)
Definition shared_children : dict :=
  [("webservers",
    JDict [("hosts",
            JDict [("web-a", JDict [("ansible_host", JStr "10.0.0.1")]);
                   ("shared", JDict [("role", JStr "web")])]);
           ("vars", JDict [("ansible_user", JStr "admin")])]);
   ("databases",
    JDict [("hosts", JDict [("shared", JDict [("role", JStr "db")])])])].

Definition shared_outputs : dict :=
  [("ansible_inventory",
    value_of (JDict [("all", JDict [("children", JDict shared_children)])]))].

(** The decoder of the further samples. *)
Definition more_loads : string -> option json :=
  table_loads
    [("flat", JDict flat_outputs);
     ("prebuilt", JDict prebuilt_outputs);
     ("number", JDict number_outputs);
     ("encoded", JDict encoded_outputs);
     ("inventory text", prebuilt_value);
     ("undecodable", JDict undecodable_outputs);
     ("valueless", JDict valueless_outputs);
     ("app_string", JDict app_string_outputs);
     ("endpoint_list", JDict endpoint_list_outputs);
     ("shared", JDict shared_outputs);
     ("list", JList [JStr "web_instance_public_ips"]);
     ("zero", JInt 0)].

(** A world in which [terraform] cannot be started. *)
Definition terraform_missing : world :=
  {| environ := fun _ => None;
     terraform_output_json := fun _ => NotStarted |}.

(** * Properties *)

(** ** Dictionaries *)

Lemma dict_get_set_same k v d : dict_get k (dict_set k v d) = Some v.
Proof.
  induction d as [|[k' v'] d IH]; simpl.
  - now rewrite String.eqb_refl.
  - destruct (String.eqb k k') eqn:E; simpl; rewrite E; auto.
Qed.

Lemma dict_get_set_other k k' v d :
  k <> k' -> dict_get k (dict_set k' v d) = dict_get k d.
Proof.
  intros Hne. induction d as [|[k0 v0] d IH]; simpl.
  - apply String.eqb_neq in Hne. now rewrite Hne.
  - destruct (String.eqb k' k0) eqn:E; simpl.
    + apply String.eqb_eq in E. subst k0.
      apply String.eqb_neq in Hne. now rewrite Hne.
    + now rewrite IH.
Qed.

Lemma dict_get_set k k' v d :
  dict_get k (dict_set k' v d) =
  if String.eqb k k' then Some v else dict_get k d.
Proof.
  destruct (String.eqb k k') eqn:E.
  - apply String.eqb_eq in E. subst. apply dict_get_set_same.
  - apply String.eqb_neq in E. now apply dict_get_set_other.
Qed.

Lemma dict_mem_set k k' v d :
  dict_mem k (dict_set k' v d) = String.eqb k k' || dict_mem k d.
Proof.
  unfold dict_mem. rewrite dict_get_set. now destruct (String.eqb k k').
Qed.

Lemma dict_mem_In k d : dict_mem k d = true <-> In k (dict_keys d).
Proof.
  unfold dict_mem. induction d as [|[k' v'] d IH]; simpl.
  - split; [discriminate | tauto].
  - destruct (String.eqb k k') eqn:E.
    + apply String.eqb_eq in E. subst. tauto.
    + apply String.eqb_neq in E. rewrite IH. split; [tauto|].
      intros [H|H]; [congruence | exact H].
Qed.

Lemma dict_get_None_In k d : dict_get k d = None <-> ~ In k (dict_keys d).
Proof.
  rewrite <- dict_mem_In. unfold dict_mem.
  destruct (dict_get k d); split; congruence.
Qed.

(** Assigning to a key that is present keeps the order of the keys. *)
Lemma dict_keys_set_mem k v d :
  dict_mem k d = true -> dict_keys (dict_set k v d) = dict_keys d.
Proof.
  unfold dict_mem. induction d as [|[k' v'] d IH]; simpl; [discriminate|].
  destruct (String.eqb k k') eqn:E; simpl; [reflexivity|].
  intros H. now rewrite IH.
Qed.

Lemma dict_keys_set_new k v d :
  dict_mem k d = false -> dict_keys (dict_set k v d) = dict_keys d ++ [k].
Proof.
  unfold dict_mem. induction d as [|[k' v'] d IH]; simpl; [reflexivity|].
  destruct (String.eqb k k') eqn:E; simpl; [discriminate|].
  intros H. now rewrite IH.
Qed.

Lemma dict_set_NoDup k v d :
  NoDup (dict_keys d) -> NoDup (dict_keys (dict_set k v d)).
Proof.
  intros H. destruct (dict_mem k d) eqn:E.
  - now rewrite dict_keys_set_mem.
  - rewrite dict_keys_set_new by exact E.
    apply NoDup_app; [exact H | repeat constructor; simpl; tauto |].
    intros x Hx [<-|[]].
    apply dict_mem_In in Hx. congruence.
Qed.

(** Assigning to a key the value it has changes nothing. *)
Lemma dict_set_same_value k v d :
  dict_get k d = Some v -> dict_set k v d = d.
Proof.
  induction d as [|[k' v'] d IH]; simpl; [discriminate|].
  destruct (String.eqb k k') eqn:E.
  - intros [= ->]. reflexivity.
  - intros H. now rewrite IH.
Qed.

Lemma dict_set_twice k v v' d :
  dict_set k v (dict_set k v' d) = dict_set k v d.
Proof.
  induction d as [|[k0 v0] d IH]; simpl.
  - now rewrite String.eqb_refl.
  - destruct (String.eqb k k0) eqn:E; simpl; rewrite E; [reflexivity|].
    now rewrite IH.
Qed.

(** Assignments to two different keys commute when the first one assigned
    is already present (it is then replaced in place). *)
Lemma dict_set_comm k k' v v' d :
  k <> k' -> dict_mem k d = true ->
  dict_set k v (dict_set k' v' d) = dict_set k' v' (dict_set k v d).
Proof.
  intros Hne. unfold dict_mem.
  induction d as [|[k0 v0] d IH]; simpl; [discriminate|].
  destruct (String.eqb k k0) eqn:E, (String.eqb k' k0) eqn:E'; simpl;
    rewrite ?E, ?E'; try reflexivity.
  - apply String.eqb_eq in E, E'. congruence.
  - intros H. now rewrite IH.
Qed.

(** Two dictionaries without repeated keys are equal when they have the
    same keys in the same order and the same value at every key. *)
Lemma dict_ext d1 d2 :
  NoDup (dict_keys d1) ->
  dict_keys d1 = dict_keys d2 ->
  (forall k, dict_get k d1 = dict_get k d2) ->
  d1 = d2.
Proof.
  revert d2. induction d1 as [|[k1 v1] d1 IH]; intros [|[k2 v2] d2];
    simpl; try discriminate; [reflexivity|].
  intros Hnd [= <- Hk] Hget. inversion Hnd as [|? ? Hnin Hnd']; subst.
  pose proof (Hget k1) as H1. simpl in H1. rewrite String.eqb_refl in H1.
  injection H1 as <-. f_equal. apply IH; auto.
  intros k. specialize (Hget k). simpl in Hget.
  destruct (String.eqb k k1) eqn:E; [|exact Hget].
  apply String.eqb_eq in E. subst k.
  assert (H1 : dict_get k1 d1 = None) by now apply dict_get_None_In.
  assert (H2 : dict_get k1 d2 = None)
    by (apply dict_get_None_In; now rewrite <- Hk).
  congruence.
Qed.

(** ** The inventory as groups and host variables *)

Lemma hostvars_are_of s hv : hostvars_are s hv -> hostvars_of s = Some hv.
Proof. unfold hostvars_are, hostvars_of. now intros ->. Qed.

Lemma hostvars_are_init : hostvars_are __init__ [].
Proof. reflexivity. Qed.

Lemma dict_get_app k d1 d2 :
  dict_get k (d1 ++ d2) =
  match dict_get k d1 with
  | Some v => Some v
  | None => dict_get k d2
  end.
Proof.
  induction d1 as [|[k' v'] d1 IH]; simpl; [reflexivity|].
  now destruct (String.eqb k k').
Qed.

Lemma assign_app l1 l2 d : assign (l1 ++ l2) d = assign l2 (assign l1 d).
Proof.
  revert d. induction l1 as [|[k v] l1 IH]; intros d; simpl; auto.
Qed.

(** The value at [k] after a sequence of assignments is the last one
    assigned to [k], if any. *)
Lemma dict_get_assign k l d :
  dict_get k (assign l d) =
  match dict_get k (rev l) with
  | Some v => Some v
  | None => dict_get k d
  end.
Proof.
  revert d. induction l as [|[k' v'] l IH]; intros d; simpl; [reflexivity|].
  rewrite IH, dict_get_app, dict_get_set. simpl.
  destruct (dict_get k (rev l)); [reflexivity|].
  now destruct (String.eqb k k').
Qed.

Lemma dict_get_rev_None k (l : dict) :
  ~ In k (map fst l) -> dict_get k (rev l) = None.
Proof.
  intros H. apply dict_get_None_In. unfold dict_keys.
  rewrite map_rev, <- in_rev. exact H.
Qed.

Lemma dict_get_assign_other k l d :
  ~ In k (map fst l) -> dict_get k (assign l d) = dict_get k d.
Proof.
  intros H. now rewrite dict_get_assign, dict_get_rev_None.
Qed.

Lemma dict_mem_assign k l d :
  dict_mem k (assign l d) = true <-> In k (map fst l) \/ dict_mem k d = true.
Proof.
  revert d. induction l as [|[k' v'] l IH]; intros d; simpl; [tauto|].
  rewrite IH, dict_mem_set, orb_true_iff, String.eqb_eq.
  intuition congruence.
Qed.

Lemma assign_NoDup l d :
  NoDup (dict_keys d) -> NoDup (dict_keys (assign l d)).
Proof.
  revert d. induction l as [|[k v] l IH]; intros d H; simpl; auto.
  apply IH. now apply dict_set_NoDup.
Qed.

Lemma dict_keys_assign_mem l d :
  (forall k, In k (map fst l) -> dict_mem k d = true) ->
  dict_keys (assign l d) = dict_keys d.
Proof.
  revert d. induction l as [|[k v] l IH]; intros d H; simpl; [reflexivity|].
  rewrite IH.
  - apply dict_keys_set_mem. apply H. now left.
  - intros k' Hk'. rewrite dict_mem_set. rewrite H by now right.
    apply orb_true_r.
Qed.

(** Replaying a sequence of assignments changes nothing. *)
Lemma assign_idempotent l d :
  NoDup (dict_keys d) -> assign l (assign l d) = assign l d.
Proof.
  intros Hnd. symmetry. apply dict_ext.
  - now apply assign_NoDup.
  - symmetry. apply dict_keys_assign_mem.
    intros k Hk. apply dict_mem_assign. now left.
  - intros k. rewrite (dict_get_assign k l (assign l d)).
    rewrite dict_get_assign. now destruct (dict_get k (rev l)).
Qed.

Lemma assign_set_meta G X s :
  Forall (fun kv => fst kv <> "_meta") G ->
  dict_mem "_meta" s = true ->
  assign G (dict_set "_meta" X s) = dict_set "_meta" X (assign G s).
Proof.
  revert s. induction G as [|[g v] G IH]; intros s HG Hs; simpl; auto.
  inversion HG as [|? ? Hg HG']; subst. simpl in Hg.
  rewrite <- IH; auto.
  - f_equal. symmetry. apply dict_set_comm; auto.
  - rewrite dict_mem_set, Hs. apply orb_true_r.
Qed.

Lemma dict_get_meta_assign G s :
  Forall (fun kv => fst kv <> "_meta") G ->
  dict_get "_meta" (assign G s) = dict_get "_meta" s.
Proof.
  intros HG. apply dict_get_assign_other.
  rewrite in_map_iff. intros [kv [Hk Hin]].
  rewrite Forall_forall in HG. now apply (HG kv).
Qed.

Lemma commit_hostvars G H s hv : hostvars_are (commit G H s hv) (assign H hv).
Proof. apply dict_get_set_same. Qed.

Lemma commit_nil s hv : hostvars_are s hv -> commit [] [] s hv = s.
Proof. intros Hs. now apply dict_set_same_value. Qed.

Lemma commit_app G1 H1 G2 H2 s hv :
  hostvars_are s hv ->
  Forall (fun kv => fst kv <> "_meta") G1 ->
  Forall (fun kv => fst kv <> "_meta") G2 ->
  commit G2 H2 (commit G1 H1 s hv) (assign H1 hv) =
  commit (G1 ++ G2) (H1 ++ H2) s hv.
Proof.
  intros Hs HG1 HG2. unfold commit.
  rewrite assign_set_meta; auto.
  - now rewrite dict_set_twice, !assign_app.
  - unfold dict_mem. rewrite dict_get_meta_assign by exact HG1.
    now rewrite Hs.
Qed.

Lemma dict_get_commit g G H s hv :
  g <> "_meta" -> dict_get g (commit G H s hv) = dict_get g (assign G s).
Proof. intros Hg. now apply dict_get_set_other. Qed.

(** Replaying the assignments of a run on the inventory it left changes
    nothing: groups and hosts keep their positions and their values. *)
Lemma commit_idempotent G H s hv :
  hostvars_are s hv ->
  Forall (fun kv => fst kv <> "_meta") G ->
  NoDup (dict_keys s) -> NoDup (dict_keys hv) ->
  commit G H (commit G H s hv) (assign H hv) = commit G H s hv.
Proof.
  intros Hs HG Hnd Hnd'. rewrite commit_app by assumption.
  unfold commit. now rewrite !assign_app, !assign_idempotent.
Qed.

(** ** Computations as assignment sequences *)

Lemma runs_lift {A : Type} (r : result A) : runs (lift r) r [] [].
Proof.
  split; [constructor|]. intros s hv Hs. unfold lift.
  now rewrite commit_nil.
Qed.

Lemma runs_ret {A : Type} (a : A) : runs (ret a) (Ok a) [] [].
Proof. apply (runs_lift (Ok a)). Qed.

Lemma runs_set_group g v : g <> "_meta" -> runs (set_group g v) (Ok tt) [(g, v)] [].
Proof.
  intros Hg. split; [now repeat constructor|].
  intros s hv Hs. unfold set_group, commit. simpl.
  rewrite (dict_set_same_value "_meta"); [reflexivity|].
  rewrite dict_get_set_other by congruence. exact Hs.
Qed.

Lemma runs_set_hostvars h v : runs (set_hostvars h v) (Ok tt) [] [(h, v)].
Proof.
  split; [constructor|]. intros s hv Hs.
  unfold set_hostvars, py_getitem. rewrite Hs. reflexivity.
Qed.

Lemma runs_bind_ok {A B : Type} (m : M A) (k : A -> M B) a r G1 H1 G2 H2 :
  runs m (Ok a) G1 H1 -> runs (k a) r G2 H2 ->
  runs (bind m k) r (G1 ++ G2) (H1 ++ H2).
Proof.
  intros [HG1 Hm] [HG2 Hk]. split; [now apply Forall_app|].
  intros s hv Hs. unfold bind. rewrite (Hm s hv Hs).
  rewrite (Hk _ _ (commit_hostvars G1 H1 s hv)).
  now rewrite commit_app.
Qed.

Lemma runs_bind_raise {A B : Type} (m : M A) (k : A -> M B) e G H :
  runs m (Raise e) G H -> runs (bind m k) (Raise e) G H.
Proof.
  intros [HG Hm]. split; [exact HG|].
  intros s hv Hs. unfold bind. now rewrite (Hm s hv Hs).
Qed.

Lemma bind_lift_Ok {A B : Type} (a : A) (k : A -> M B) :
  bind (lift (Ok a)) k = k a.
Proof. reflexivity. Qed.

Lemma runs_bind_lift {A B : Type} (r : result A) (k : A -> M B) a r' G H :
  r = Ok a -> runs (k a) r' G H -> runs (bind (lift r) k) r' G H.
Proof.
  intros -> Hk. apply (runs_bind_ok (lift (Ok a)) k a r' [] [] G H);
    [apply runs_lift | exact Hk].
Qed.

Lemma runs_for_each {A : Type} (l : list A) (body : A -> M unit)
    (kv : A -> string * json) :
  (forall x, In x l -> runs (body x) (Ok tt) [] [kv x]) ->
  runs (for_each l body) (Ok tt) [] (map kv l).
Proof.
  induction l as [|x l IH]; intros Hbody; simpl.
  - apply runs_ret.
  - apply (runs_bind_ok (body x) _ tt (Ok tt) [] [kv x] [] (map kv l)).
    + apply Hbody. now left.
    + apply IH. intros y Hy. apply Hbody. now right.
Qed.

(** Where a run leaves a group and the host variables. *)
Lemma runs_state {A : Type} (m : M A) r G H s hv :
  runs m r G H -> hostvars_are s hv ->
  fst (m s) = r /\
  hostvars_are (snd (m s)) (assign H hv) /\
  forall g, g <> "_meta" -> dict_get g (snd (m s)) = dict_get g (assign G s).
Proof.
  intros [HG Hm] Hs. rewrite (Hm s hv Hs). simpl. repeat split.
  - apply commit_hostvars.
  - intros g Hg. now apply dict_get_commit.
Qed.

Lemma covered_app G1 H1 G2 H2 :
  covered G1 H1 -> covered G2 H2 -> covered (G1 ++ G2) (H1 ++ H2).
Proof.
  intros C1 C2 g grp x Hin Hx. rewrite map_app.
  apply in_app_or in Hin. destruct Hin as [Hin|Hin].
  - destruct (C1 g grp x Hin Hx) as [h [-> Hh]]. exists h. split; auto.
    apply in_or_app. now left.
  - destruct (C2 g grp x Hin Hx) as [h [-> Hh]]. exists h. split; auto.
    apply in_or_app. now right.
Qed.

Lemma covered_nil H : covered [] H.
Proof. intros g grp x []. Qed.

Lemma logged_intro {A : Type} (PG PH : string -> Prop) (m : M A) r G H :
  runs m r G H ->
  Forall (fun kv => PG (fst kv)) G ->
  Forall (fun kv => PH (fst kv)) H ->
  ((exists a, r = Ok a) -> covered G H) ->
  logged PG PH m.
Proof.
  intros [HG Hm] HPG HPH Hc. exists r, G, H. repeat split; auto.
  rewrite Forall_forall in *. intros kv Hin. split; auto.
Qed.

Lemma logged_runs {A : Type} (PG PH : string -> Prop) (m : M A) :
  logged PG PH m ->
  exists r G H,
    runs m r G H /\
    Forall (fun kv => PG (fst kv)) G /\
    Forall (fun kv => PH (fst kv)) H /\
    ((exists a, r = Ok a) -> covered G H).
Proof.
  intros (r & G & H & HG & HH & Hc & Hm). exists r, G, H.
  rewrite Forall_forall in HG.
  repeat split; auto; rewrite Forall_forall; intros kv Hin; now apply HG.
Qed.

Lemma logged_lift {A : Type} PG PH (r : result A) : logged PG PH (lift r).
Proof.
  apply (logged_intro PG PH _ r [] []); auto using runs_lift, covered_nil.
Qed.

Lemma logged_ret {A : Type} PG PH (a : A) : logged PG PH (ret a).
Proof. apply (logged_lift PG PH (Ok a)). Qed.

Lemma logged_bind {A B : Type} PG PH (m : M A) (k : A -> M B) :
  logged PG PH m -> (forall a, logged PG PH (k a)) ->
  logged PG PH (bind m k).
Proof.
  intros Hm Hk.
  destruct (logged_runs _ _ _ Hm) as (r & G1 & H1 & Hr & HG1 & HH1 & Hc1).
  destruct r as [a|e].
  - destruct (logged_runs _ _ _ (Hk a)) as (r & G2 & H2 & Hr2 & HG2 & HH2 & Hc2).
    apply (logged_intro PG PH _ r (G1 ++ G2) (H1 ++ H2)).
    + eapply runs_bind_ok; eassumption.
    + now apply Forall_app.
    + now apply Forall_app.
    + intros Hok. apply covered_app; eauto.
  - apply (logged_intro PG PH _ (Raise e) G1 H1); auto.
    + now apply runs_bind_raise.
    + intros [b Hb]. discriminate.
Qed.

Lemma logged_bind_lift {A B : Type} PG PH (r : result A) (k : A -> M B) :
  (forall a, r = Ok a -> logged PG PH (k a)) ->
  logged PG PH (bind (lift r) k).
Proof.
  intros Hk. destruct r as [a|e].
  - destruct (logged_runs _ _ _ (Hk a eq_refl))
      as (r & G & H & Hr & HG & HH & Hc).
    apply (logged_intro PG PH _ r G H); auto.
  - apply (logged_intro PG PH _ (Raise e) [] []); auto using covered_nil.
    apply runs_bind_raise, runs_lift.
Qed.

Lemma logged_weaken {A : Type} (PG PH PG' PH' : string -> Prop) (m : M A) :
  (forall g, PG g -> PG' g) -> (forall h, PH h -> PH' h) ->
  logged PG PH m -> logged PG' PH' m.
Proof.
  intros HG HH Hm.
  destruct (logged_runs _ _ _ Hm) as (r & G & H & Hr & HG1 & HH1 & Hc).
  apply (logged_intro PG' PH' _ r G H); auto.
  - eapply Forall_impl; [|exact HG1]. simpl. auto.
  - eapply Forall_impl; [|exact HH1]. simpl. auto.
Qed.

(** ** The blocks of the script as assignment sequences *)

Lemma rbind_Ok {A B : Type} (r : result A) (k : A -> result B) b :
  rbind r k = Ok b -> exists a, r = Ok a /\ k a = Ok b.
Proof. destruct r as [a|e]; simpl; [eauto | discriminate]. Qed.

Lemma py_keys_Ok c names :
  py_keys c = Ok names -> exists d, c = JDict d /\ names = dict_keys d.
Proof. destruct c; simpl; try discriminate. intros [= <-]. eauto. Qed.

Lemma py_len_iter c n :
  py_len c = Ok n -> exists elems, py_iter c = Ok elems /\ List.length elems = n.
Proof.
  destruct c; simpl; try discriminate; intros [= <-]; eexists; split;
    try reflexivity.
  - unfold chars. rewrite length_map.
    induction s; simpl; congruence.
  - unfold dict_keys. now rewrite !length_map.
Qed.

Lemma process_group_logged g group_vars children :
  g <> "_meta" ->
  logged (eq g) (fun _ => True) (process_group g group_vars children).
Proof.
  intros Hg. unfold process_group.
  apply logged_bind_lift. intros present _.
  destruct present; [|apply logged_ret].
  apply logged_bind_lift. intros names Hnames.
  apply rbind_Ok in Hnames. destruct Hnames as [group [Hgroup Hnames]].
  apply rbind_Ok in Hnames. destruct Hnames as [hosts [Hhosts Hnames]].
  apply py_keys_Ok in Hnames. destruct Hnames as [hd [-> ->]].
  rewrite Hgroup. simpl. rewrite Hhosts. simpl.
  set (kv := fun x : string * json => let '(host, vars) := x in (host, vars)).
  apply (logged_intro _ _ _ (Ok tt)
           ([(g, JDict [("hosts", JList (map JStr (dict_keys hd)));
                        ("vars", group_vars)])] ++ [])
           ([] ++ map kv hd)).
  - eapply runs_bind_ok; [now apply runs_set_group|].
    apply (runs_bind_lift (Ok hd) _ hd); [reflexivity|].
    apply runs_for_each. intros [host vars] _. apply runs_set_hostvars.
  - repeat constructor.
  - apply Forall_forall. auto.
  - intros _ g' grp x [[= <- <-]|[]]. simpl. rewrite in_map_iff.
    intros [h [<- Hh]]. exists h. split; [reflexivity|].
    rewrite map_map.
    replace (map (fun x => fst (kv x)) hd) with (dict_keys hd); [exact Hh|].
    apply map_ext. now intros [a b].
Qed.

Lemma enumerate_fst {A : Type} (l : list A) :
  map fst (enumerate l) = seq 0 (List.length l).
Proof.
  unfold enumerate. generalize 0.
  induction l as [|x l IH]; intros n; simpl; [reflexivity|].
  now rewrite IH.
Qed.

Lemma extract_servers_logged output g prefix server_type tf_outputs :
  g <> "_meta" ->
  logged (eq g) (fun h => exists i, h = server_name prefix i)
    (extract_servers output g prefix server_type tf_outputs).
Proof.
  intros Hg. unfold extract_servers.
  apply logged_bind_lift. intros ips _.
  destruct (truthy ips); [|apply logged_ret].
  apply logged_bind_lift. intros n Hn.
  destruct (py_len_iter _ _ Hn) as [elems [Helems Hlen]]. rewrite Helems.
  set (kv := fun x : nat * json =>
               let '(i, ip) := x in (server_name prefix i, server_vars ip)).
  match goal with
  | |- logged _ _ (bind (set_group g ?V) _) =>
      apply (logged_intro _ _ _ (Ok tt) ([(g, V)] ++ [])
               ([] ++ map kv (enumerate elems)))
  end.
  - eapply runs_bind_ok; [now apply runs_set_group|].
    apply (runs_bind_lift (Ok elems) _ elems); [reflexivity|].
    apply runs_for_each. intros [i ip] _. apply runs_set_hostvars.
  - repeat constructor.
  - apply Forall_forall. intros kv0. simpl. rewrite in_map_iff.
    intros [[i ip] [<- _]]. simpl. now exists i.
  - intros _ g' grp x [[= <- <-]|[]]. simpl. rewrite in_map_iff.
    intros [i [<- Hi]]. exists (server_name prefix i). split; [reflexivity|].
    rewrite map_map.
    replace (map (fun x => fst (kv x)) (enumerate elems))
      with (map (server_name prefix) (map fst (enumerate elems))).
    + rewrite enumerate_fst, Hlen. now apply in_map.
    + rewrite map_map. apply map_ext. now intros [a b].
Qed.

Lemma extract_database_logged tf_outputs :
  logged (eq "databases") (eq "database") (extract_database tf_outputs).
Proof.
  unfold extract_database.
  apply logged_bind_lift. intros db_endpoint _.
  destruct (truthy db_endpoint); [|apply logged_ret].
  match goal with
  | |- logged _ _ (bind (set_group _ ?V) (fun _ => bind (lift ?R) _)) =>
      destruct R as [host_vars|e] eqn:ER;
      [ apply (logged_intro _ _ _ (Ok tt) ([("databases", V)] ++ [])
                 ([] ++ [("database", host_vars)]))
      | apply (logged_intro _ _ _ (Raise e) ([("databases", V)] ++ [])
                 ([] ++ [])) ]
  end.
  - eapply runs_bind_ok; [apply runs_set_group; discriminate|].
    apply (runs_bind_lift (Ok host_vars) _ host_vars); [reflexivity|].
    apply runs_set_hostvars.
  - repeat constructor.
  - repeat constructor.
  - intros _ g' grp x [[= <- <-]|[]]. simpl. intros [<-|[]].
    exists "database". split; [reflexivity | now left].
  - eapply runs_bind_ok; [apply runs_set_group; discriminate|].
    apply runs_bind_raise, runs_lift.
  - repeat constructor.
  - constructor.
  - intros [a Ha]. discriminate.
Qed.

Lemma add_common_vars_logged tf_outputs :
  logged (eq "all") (fun _ => False) (add_common_vars tf_outputs).
Proof.
  unfold add_common_vars.
  apply logged_bind_lift. intros common _.
  apply (logged_intro _ _ _ (Ok tt) [("all", JDict [("vars", common)])] []).
  - apply runs_set_group. discriminate.
  - repeat constructor.
  - constructor.
  - intros _ g' grp x [[= <- <-]|[]]. simpl. tauto.
Qed.

Lemma dict_get_In k v (d : dict) : dict_get k d = Some v -> In (k, v) d.
Proof.
  induction d as [|[k' v'] d IH]; simpl; [discriminate|].
  destruct (String.eqb k k') eqn:E.
  - apply String.eqb_eq in E. intros [= ->]. subst. now left.
  - intros H. right. now apply IH.
Qed.

Lemma dict_get_In_NoDup k v (d : dict) :
  NoDup (dict_keys d) -> In (k, v) d -> dict_get k d = Some v.
Proof.
  induction d as [|[k' v'] d IH]; simpl; [tauto|].
  intros Hnd Hin. inversion Hnd as [|? ? Hnin Hnd']; subst.
  destruct Hin as [[= -> ->]|Hin].
  - now rewrite String.eqb_refl.
  - destruct (String.eqb k k') eqn:E; [|now apply IH].
    apply String.eqb_eq in E. subst k'. exfalso. apply Hnin.
    change k with (fst (k, v)). now apply in_map.
Qed.

(** After assignments to distinct keys, each key has the value assigned. *)
Lemma dict_get_assign_NoDup k v l d :
  NoDup (map fst l) -> In (k, v) l -> dict_get k (assign l d) = Some v.
Proof.
  intros Hnd Hin. rewrite dict_get_assign.
  rewrite (dict_get_In_NoDup k v (rev l)); [reflexivity | |].
  - unfold dict_keys. rewrite map_rev. now apply NoDup_rev.
  - now apply in_rev in Hin.
Qed.

Section Script.

Variable json_loads : string -> option json.


Ltac by_block lemma :=
  eapply logged_weaken; [| |apply lemma; try discriminate];
  unfold any; auto.

Lemma _parse_individual_outputs_logged tf_outputs :
  logged any any (_parse_individual_outputs tf_outputs).
Proof.
  unfold _parse_individual_outputs.
  repeat (apply logged_bind; [|intros _]).
  - by_block extract_servers_logged.
  - by_block extract_servers_logged.
  - by_block extract_database_logged.
  - by_block add_common_vars_logged.
Qed.

Lemma parse_prebuilt_logged entry : logged any any (parse_prebuilt json_loads entry).
Proof.
  unfold parse_prebuilt.
  apply logged_bind_lift. intros inventory_data _.
  apply logged_bind_lift. intros shaped _.
  destruct shaped; [|apply logged_ret].
  apply logged_bind_lift. intros children _.
  repeat (apply logged_bind; [by_block process_group_logged|intros _]).
  apply logged_bind_lift. intros has_vars _.
  destruct has_vars; [|apply logged_ret].
  apply logged_bind_lift. intros vars _.
  apply (logged_intro _ _ _ (Ok tt) [("all", JDict [("vars", vars)])] []).
  - apply runs_set_group. discriminate.
  - repeat constructor.
  - constructor.
  - intros _ g' grp x [[= <- <-]|[]]. simpl. tauto.
Qed.

Lemma parse_ansible_inventory_logged tf_outputs :
  logged any any (parse_ansible_inventory json_loads tf_outputs).
Proof.
  unfold parse_ansible_inventory.
  apply logged_bind_lift. intros designated _.
  destruct designated.
  - apply logged_bind_lift. intros entry _. apply parse_prebuilt_logged.
  - apply _parse_individual_outputs_logged.
Qed.

(** [get_inventory] by cases on the outputs acquired. *)
Lemma get_inventory_unfold w s :
  get_inventory json_loads w s =
  match get_terraform_output json_loads w (terraform_dir w) with
  | Raise e => (Raise e, s)
  | Ok tf_outputs =>
      if truthy tf_outputs then
        match parse_ansible_inventory json_loads tf_outputs s with
        | (Ok _, s') => (Ok (JDict s'), s')
        | (Raise e, s') => (Raise e, s')
        end
      else (Ok (JDict empty_inventory), empty_inventory)
  end.
Proof.
  unfold get_inventory, bind, lift.
  destruct (get_terraform_output json_loads w (terraform_dir w)) as [tf|e];
    [|reflexivity].
  destruct (truthy tf); [|reflexivity].
  destruct (parse_ansible_inventory json_loads tf s) as [[[]|e] s']; reflexivity.
Qed.

(** What [get_inventory] returns is the inventory it leaves in the
    instance. *)
Lemma get_inventory_returns_self w s doc s' :
  get_inventory json_loads w s = (Ok doc, s') -> doc = JDict s'.
Proof.
  rewrite get_inventory_unfold.
  destruct (get_terraform_output json_loads w (terraform_dir w)) as [tf|e];
    [|discriminate].
  destruct (truthy tf).
  - destruct (parse_ansible_inventory json_loads tf s) as [[[]|e] s1];
      [|discriminate].
    now intros [= <- <-].
  - now intros [= <- <-].
Qed.

(** ** Acquisition *)




(** ** The empty snapshot *)

(** C1. When the acquired snapshot is the empty mapping, [get_inventory]
    returns exactly
    [{"all": {"hosts": [], "vars": {}}, "_meta": {"hostvars": {}}}],
    whatever the instance held before, and that document is what the
    instance holds afterwards. *)
Theorem get_inventory_empty_snapshot w s :
  get_terraform_output json_loads w (terraform_dir w) = Ok (JDict []) ->
  get_inventory json_loads w s =
  (Ok (JDict [("all", JDict [("hosts", JList []); ("vars", JDict [])]);
              ("_meta", JDict [("hostvars", JDict [])])]),
   [("all", JDict [("hosts", JList []); ("vars", JDict [])]);
    ("_meta", JDict [("hostvars", JDict [])])]).
Proof.
  intros Hsnap. rewrite get_inventory_unfold, Hsnap. reflexivity.
Qed.

(** ** What a run leaves in the instance *)

(** A run of [get_inventory] on an instance with [_meta.hostvars] is either
    the reset to the empty inventory or a sequence of assignments. *)
Lemma get_inventory_runs w :
  (forall s, get_inventory json_loads w s =
             (Ok (JDict empty_inventory), empty_inventory)) \/
  (exists e, forall s, get_inventory json_loads w s = (Raise e, s)) \/
  (exists (r : result unit) G H,
      Forall (fun kv => fst kv <> "_meta") G /\
      ((exists a, r = Ok a) -> covered G H) /\
      forall s hv, hostvars_are s hv ->
        get_inventory json_loads w s =
        (match r with
         | Ok _ => Ok (JDict (commit G H s hv))
         | Raise e => Raise e
         end, commit G H s hv)).
Proof.
  destruct (get_terraform_output json_loads w (terraform_dir w))
    as [tf|e] eqn:Hsnap.
  - destruct (truthy tf) eqn:Htruthy.
    + right. right.
      destruct (logged_runs _ _ _ (parse_ansible_inventory_logged tf))
        as (r & G & H & [HG Hr] & _ & _ & Hc).
      exists r, G, H. repeat split; auto.
      intros s hv Hs. rewrite get_inventory_unfold, Hsnap, Htruthy.
      rewrite (Hr s hv Hs). now destruct r.
    + left. intros s. now rewrite get_inventory_unfold, Hsnap, Htruthy.
  - right. left. exists e. intros s.
    now rewrite get_inventory_unfold, Hsnap.
Qed.

(** ** Hosts of groups and host variables *)

(** An inventory in which every name listed in the ["hosts"] of an entry
    is a key of [_meta.hostvars]. *)
Lemma get_inventory_covered w s hv doc s' :
  hostvars_are s hv ->
  (forall g grp x, dict_get g s = Some grp -> In x (group_hosts grp) ->
     exists h, x = JStr h /\ dict_mem h hv = true) ->
  get_inventory json_loads w s = (Ok doc, s') ->
  exists hv', hostvars_are s' hv' /\
    forall g grp x, dict_get g s' = Some grp -> In x (group_hosts grp) ->
      exists h, x = JStr h /\ dict_mem h hv' = true.
Proof.
  intros Hs Hcov Hrun.
  destruct (get_inventory_runs w) as [Hempty|[[e He]|(r & G & H & HG & Hc & Hr)]].
  - rewrite Hempty in Hrun. injection Hrun as <- <-.
    exists []. split; [reflexivity|].
    intros g grp x Hg Hx. simpl in Hg.
    destruct (String.eqb g "all"); [injection Hg as <-; destruct Hx|].
    destruct (String.eqb g "_meta"); [injection Hg as <-; destruct Hx|].
    discriminate.
  - rewrite He in Hrun. discriminate.
  - rewrite (Hr s hv Hs) in Hrun. destruct r as [[]|e]; [|discriminate].
    injection Hrun as <- <-.
    exists (assign H hv). split; [apply commit_hostvars|].
    intros g grp x Hg Hx.
    destruct (String.eqb g "_meta") eqn:Eg.
    + apply String.eqb_eq in Eg. subst g.
      rewrite (commit_hostvars G H s hv) in Hg. injection Hg as <-.
      destruct Hx.
    + apply String.eqb_neq in Eg. rewrite dict_get_commit in Hg by exact Eg.
      rewrite dict_get_assign in Hg.
      destruct (dict_get g (rev G)) as [grp'|] eqn:EG.
      * injection Hg as ->. apply dict_get_In, in_rev in EG.
        destruct (Hc (ex_intro _ tt eq_refl) g grp x EG Hx) as [h [-> Hh]].
        exists h. split; [reflexivity|].
        apply dict_mem_assign. now left.
      * destruct (Hcov g grp x Hg Hx) as [h [-> Hh]].
        exists h. split; [reflexivity|].
        apply dict_mem_assign. now right.
Qed.

(** C2. In the inventory that [get_inventory] returns on a new instance,
    whichever path built it, every element of the ["hosts"] list of every
    group is a host name that is a key of [_meta.hostvars]. *)
Theorem hosts_have_hostvars w doc s' :
  get_inventory json_loads w __init__ = (Ok doc, s') ->
  exists inv hostvars,
    doc = JDict inv /\
    hostvars_of inv = Some hostvars /\
    forall g group hosts x,
      dict_get g inv = Some (JDict group) ->
      dict_get "hosts" group = Some (JList hosts) ->
      In x hosts ->
      exists h, x = JStr h /\ dict_mem h hostvars = true.
Proof.
  intros Hrun.
  destruct (get_inventory_covered w __init__ [] doc s' hostvars_are_init)
    as [hv [Hhv Hcov]]; [|exact Hrun|].
  - intros g grp x Hg Hx. simpl in Hg.
    destruct (String.eqb g "_meta"); [|discriminate].
    injection Hg as <-. destruct Hx.
  - exists s', hv. repeat split.
    + now apply get_inventory_returns_self in Hrun.
    + now apply hostvars_are_of.
    + intros g group hosts x Hg Hhosts Hx.
      apply (Hcov g (JDict group) x Hg). simpl. now rewrite Hhosts.
Qed.

(** ** The host query *)

Lemma get_inventory_hostvars w s hv r s' :
  hostvars_are s hv ->
  get_inventory json_loads w s = (r, s') ->
  exists hv', hostvars_are s' hv'.
Proof.
  intros Hs Hrun.
  destruct (get_inventory_runs w) as [Hempty|[[e He]|(r0 & G & H & HG & Hc & Hr)]].
  - rewrite Hempty in Hrun. injection Hrun as <- <-. now exists [].
  - rewrite He in Hrun. injection Hrun as <- <-. now exists hv.
  - rewrite (Hr s hv Hs) in Hrun. injection Hrun as <- <-.
    exists (assign H hv). apply commit_hostvars.
Qed.

(** C3. When [get_inventory] produces an inventory, [get_host] returns
    without raising: the empty mapping for a host name that is not a key of
    the produced [_meta.hostvars], and the entry of the host name
    otherwise. *)
Theorem get_host_lookup w hostname doc inv :
  get_inventory json_loads w __init__ = (Ok doc, inv) ->
  exists hostvars,
    doc = JDict inv /\
    hostvars_of inv = Some hostvars /\
    (dict_get hostname hostvars = None ->
     get_host json_loads w hostname __init__ = (Ok (JDict []), inv)) /\
    (forall vars, dict_get hostname hostvars = Some vars ->
     get_host json_loads w hostname __init__ = (Ok vars, inv)).
Proof.
  intros Hrun.
  destruct (get_inventory_hostvars w __init__ [] _ _ hostvars_are_init Hrun)
    as [hv Hhv].
  pose proof (get_inventory_returns_self w _ _ _ Hrun) as ->.
  exists hv. split; [reflexivity|]. split; [now apply hostvars_are_of|].
  unfold get_host, bind. rewrite Hrun. unfold lift. simpl.
  unfold hostvars_are in Hhv. rewrite Hhv. simpl.
  split.
  - now intros ->.
  - now intros vars ->.
Qed.

(** ** Precedence of the pre-built entry *)

Lemma truthy_has_key k v (tf : dict) :
  dict_get k tf = Some v -> truthy (JDict tf) = true.
Proof. destruct tf; [discriminate | reflexivity]. Qed.

(** C4. With the ["ansible_inventory"] entry present, the parse is the
    shaping [parse_prebuilt] of that entry alone, so two snapshots that
    carry the same entry give the same run of [get_inventory] whatever
    flat outputs they hold besides; [_parse_individual_outputs] is what
    runs when the entry is absent. *)
Theorem designated_entry_precedence w1 w2 tf1 tf2 entry s :
  get_terraform_output json_loads w1 (terraform_dir w1) = Ok (JDict tf1) ->
  get_terraform_output json_loads w2 (terraform_dir w2) = Ok (JDict tf2) ->
  dict_get "ansible_inventory" tf1 = Some entry ->
  dict_get "ansible_inventory" tf2 = Some entry ->
  parse_ansible_inventory json_loads (JDict tf1) s =
    parse_prebuilt json_loads entry s /\
  get_inventory json_loads w1 s = get_inventory json_loads w2 s /\
  (forall tf, dict_get "ansible_inventory" tf = None ->
     parse_ansible_inventory json_loads (JDict tf) s =
       _parse_individual_outputs (JDict tf) s).
Proof.
  intros Hw1 Hw2 H1 H2.
  assert (Hpre : forall tf, dict_get "ansible_inventory" tf = Some entry ->
            parse_ansible_inventory json_loads (JDict tf) s =
            parse_prebuilt json_loads entry s).
  { intros tf Htf. unfold parse_ansible_inventory, bind, lift. simpl.
    unfold dict_mem. now rewrite Htf. }
  repeat split.
  - now apply Hpre.
  - rewrite !get_inventory_unfold, Hw1, Hw2.
    rewrite (truthy_has_key _ _ _ H1), (truthy_has_key _ _ _ H2).
    now rewrite (Hpre tf1 H1), (Hpre tf2 H2).
  - intros tf Htf. unfold parse_ansible_inventory, bind, lift. simpl.
    unfold dict_mem. now rewrite Htf.
Qed.

(** ** Determinism *)

Lemma get_inventory_same_snapshot w1 w2 tf s :
  get_terraform_output json_loads w1 (terraform_dir w1) = Ok tf ->
  get_terraform_output json_loads w2 (terraform_dir w2) = Ok tf ->
  get_inventory json_loads w1 s = get_inventory json_loads w2 s.
Proof. intros H1 H2. now rewrite !get_inventory_unfold, H1, H2. Qed.

(** Running [get_inventory] again on the instance it has just updated
    leaves the instance as it is and gives the same result. *)
Lemma get_inventory_again w s hv :
  hostvars_are s hv -> NoDup (dict_keys s) -> NoDup (dict_keys hv) ->
  get_inventory json_loads w (snd (get_inventory json_loads w s)) =
  get_inventory json_loads w s.
Proof.
  intros Hs Hnd Hnd'.
  destruct (get_inventory_runs w) as [Hempty|[[e He]|(r & G & H & HG & Hc & Hr)]].
  - now rewrite !Hempty.
  - now rewrite !He.
  - rewrite (Hr s hv Hs). simpl.
    rewrite (Hr _ _ (commit_hostvars G H s hv)).
    now rewrite commit_idempotent.
Qed.

(** C8. The result of the list operation is a function of the snapshot:
    two runs that acquire the same snapshot, each on a new instance, give
    the same result; and so does a second run on the instance that the
    first one has updated. *)
Theorem list_deterministic w1 w2 tf :
  get_terraform_output json_loads w1 (terraform_dir w1) = Ok tf ->
  get_terraform_output json_loads w2 (terraform_dir w2) = Ok tf ->
  get_inventory json_loads w1 __init__ = get_inventory json_loads w2 __init__ /\
  get_inventory json_loads w2 (snd (get_inventory json_loads w1 __init__)) =
    get_inventory json_loads w1 __init__.
Proof.
  intros H1 H2. split.
  - exact (get_inventory_same_snapshot w1 w2 tf __init__ H1 H2).
  - rewrite <- (get_inventory_same_snapshot w1 w2 tf _ H1 H2).
    apply (get_inventory_again w1 __init__ []).
    + exact hostvars_are_init.
    + repeat constructor. simpl. tauto.
    + constructor.
Qed.

(** ** Host names of the fallback *)

Lemma decimal_inj n m : decimal n = decimal m -> n = m.
Proof.
  unfold decimal. intros H.
  apply Unsigned.to_uint_inj.
  assert (E : Some (Nat.to_uint n) = Some (Nat.to_uint m))
    by now rewrite <- !NilEmpty.usu, H.
  now injection E.
Qed.

Lemma append_inj_r (p a b : string) : (p ++ a = p ++ b)%string -> a = b.
Proof. induction p as [|c p IH]; simpl; [auto|]. intros [= H]. auto. Qed.

Lemma server_name_inj prefix i j :
  server_name prefix i = server_name prefix j -> i = j.
Proof.
  unfold server_name. intros H.
  apply append_inj_r, decimal_inj in H. lia.
Qed.

Lemma server_names_NoDup prefix l :
  NoDup l -> NoDup (map (server_name prefix) l).
Proof.
  induction 1 as [|i l Hnin Hnd IH]; simpl; constructor; auto.
  rewrite in_map_iff. intros [j [Hj Hin]].
  apply server_name_inj in Hj. now subst.
Qed.

Lemma server_names_from_1 prefix n :
  map (fun i => JStr (server_name prefix i)) (seq 0 n) =
  map (fun i => JStr (prefix ++ decimal i)) (seq 1 n).
Proof.
  rewrite <- seq_shift, map_map. apply map_ext.
  intros i. unfold server_name. now rewrite Nat.add_1_r.
Qed.

Lemma enumerate_In {A : Type} (l : list A) i x :
  nth_error l i = Some x -> In (i, x) (enumerate l).
Proof.
  unfold enumerate. intros H.
  assert (G : forall (l : list A) k i x, nth_error l i = Some x ->
            In (k + i, x) (combine (seq k (List.length l)) l)).
  { clear. induction l as [|y l IH]; intros k [|i] x; simpl; try discriminate.
    - intros [= ->]. left. f_equal. lia.
    - intros H. right. replace (k + S i) with (S k + i) by lia. now apply IH. }
  exact (G l 0 i x H).
Qed.

Lemma servers_hostvars_fst prefix elems :
  map fst (servers_hostvars prefix elems) =
  map (server_name prefix) (seq 0 (List.length elems)).
Proof.
  unfold servers_hostvars. rewrite <- enumerate_fst, !map_map.
  apply map_ext. now intros [i ip].
Qed.

(** After the loop over the addresses, the host of each position has the
    address of that position. *)
Lemma servers_hostvars_get prefix elems i ip hv :
  nth_error elems i = Some ip ->
  dict_get (server_name prefix i) (assign (servers_hostvars prefix elems) hv)
  = Some (server_vars ip).
Proof.
  intros Hi. apply dict_get_assign_NoDup.
  - rewrite servers_hostvars_fst. apply server_names_NoDup, seq_NoDup.
  - unfold servers_hostvars.
    apply (in_map (fun x : nat * json =>
                     let '(i, ip) := x in (server_name prefix i, server_vars ip))
                  _ (i, ip)).
    now apply enumerate_In.
Qed.

(** ** The fallback, block by block *)

Lemma output_value_get tf output default :
  rbind (py_get (JDict tf) output (JDict []))
        (fun entry => py_get entry "value" default) =
  match output_value tf output default with
  | Some v => Ok v
  | None => Raise AttributeError
  end.
Proof.
  unfold output_value. simpl.
  destruct (dict_get output tf) as [[]|]; simpl; try reflexivity.
  now destruct (dict_get "value" d).
Qed.

Lemma extract_servers_skip output g prefix server_type tf v :
  output_value tf output (JList []) = Some v ->
  truthy v = false ->
  runs (extract_servers output g prefix server_type (JDict tf)) (Ok tt) [] [].
Proof.
  intros Hv Ht. unfold extract_servers.
  rewrite output_value_get, Hv.
  apply (runs_bind_lift (Ok v) _ v); [reflexivity|].
  rewrite Ht. apply runs_ret.
Qed.

Lemma extract_servers_sized output g prefix server_type tf v n elems :
  g <> "_meta" ->
  output_value tf output (JList []) = Some v ->
  truthy v = true ->
  py_len v = Ok n ->
  py_iter v = Ok elems ->
  runs (extract_servers output g prefix server_type (JDict tf)) (Ok tt)
    [(g, servers_group prefix server_type n)]
    (servers_hostvars prefix elems).
Proof.
  intros Hg Hv Ht Hn He. unfold extract_servers.
  rewrite output_value_get, Hv.
  apply (runs_bind_lift (Ok v) _ v); [reflexivity|].
  rewrite Ht, Hn, He.
  apply (runs_bind_lift (Ok n) _ n); [reflexivity|].
  apply (runs_bind_ok _ _ tt (Ok tt)
           [(g, servers_group prefix server_type n)] [] []
           (servers_hostvars prefix elems)); [now apply runs_set_group|].
  apply (runs_bind_lift (Ok elems) _ elems); [reflexivity|].
  apply runs_for_each. intros [i ip] _. apply runs_set_hostvars.
Qed.

Lemma parse_fallback tf s :
  dict_get "ansible_inventory" tf = None ->
  parse_ansible_inventory json_loads (JDict tf) s =
  _parse_individual_outputs (JDict tf) s.
Proof.
  intros Htf. unfold parse_ansible_inventory, bind, lift. simpl.
  unfold dict_mem. now rewrite Htf.
Qed.

(** The run of [get_inventory] on a new instance when the fallback is
    taken. *)
Lemma get_inventory_fallback w tf r G H :
  get_terraform_output json_loads w (terraform_dir w) = Ok (JDict tf) ->
  tf <> [] ->
  dict_get "ansible_inventory" tf = None ->
  runs (_parse_individual_outputs (JDict tf)) r G H ->
  get_inventory json_loads w __init__ =
  (match r with
   | Ok _ => Ok (JDict (commit G H __init__ []))
   | Raise e => Raise e
   end, commit G H __init__ []).
Proof.
  intros Hsnap Hne Hno [_ Hr].
  rewrite get_inventory_unfold, Hsnap.
  replace (truthy (JDict tf)) with true
    by (destruct tf; [now elim Hne | reflexivity]).
  rewrite parse_fallback by exact Hno.
  rewrite (Hr __init__ [] hostvars_are_init). now destruct r.
Qed.

Lemma web_name_not_app i j : server_name "app-" i <> server_name "web-" j.
Proof. discriminate. Qed.

Lemma web_name_not_database j : "database" <> server_name "web-" j.
Proof. discriminate. Qed.

Lemma after_web_logged tf_outputs :
  logged (fun g => g <> "webservers")
         (fun h => forall i, h <> server_name "web-" i)
    (extract_servers "app_instance_private_ips" "appservers" "app-"
       "appserver" tf_outputs ;;
     extract_database tf_outputs ;;
     add_common_vars tf_outputs).
Proof.
  repeat (apply logged_bind; [|intros _]).
  - eapply logged_weaken; [| |apply extract_servers_logged; discriminate].
    + intros g <-. discriminate.
    + intros h [i ->] j. apply web_name_not_app.
  - eapply logged_weaken; [| |apply extract_database_logged].
    + intros g <-. discriminate.
    + intros h <- j. apply web_name_not_database.
  - eapply logged_weaken; [| |apply add_common_vars_logged].
    + intros g <-. discriminate.
    + intros h [].
Qed.

Lemma Forall_fst_not_In (P : string -> Prop) (l : list (string * json)) k :
  Forall (fun kv => P (fst kv)) l -> ~ P k -> ~ In k (map fst l).
Proof.
  intros Hall Hk Hin. apply in_map_iff in Hin. destruct Hin as [kv [<- Hin]].
  rewrite Forall_forall in Hall. now apply Hk, Hall.
Qed.

(** C5. On a snapshot without the ["ansible_inventory"] entry whose
    [web_instance_public_ips.value] is a list of n addresses, the fallback
    leaves in the instance, when the list is not empty, the group
    [webservers] with hosts ["web-1"], ..., ["web-n"] in this order and, for
    the address at each position i (from 0), the host variables of
    ["web-(i+1)"] with this address as [ansible_host]; the group
    [webservers] is there exactly when the list is not empty; and the
    document returned, if one is, is that inventory. *)
Theorem fallback_webservers w tf entry ips :
  get_terraform_output json_loads w (terraform_dir w) = Ok (JDict tf) ->
  dict_get "ansible_inventory" tf = None ->
  dict_get "web_instance_public_ips" tf = Some (JDict entry) ->
  dict_get "value" entry = Some (JList ips) ->
  let inv := snd (get_inventory json_loads w __init__) in
  (forall doc, fst (get_inventory json_loads w __init__) = Ok doc ->
               doc = JDict inv) /\
  (exists hostvars,
     hostvars_of inv = Some hostvars /\
     (ips <> [] ->
      dict_get "webservers" inv =
        Some (JDict [("hosts",
                      JList (map (fun i => JStr ("web-" ++ decimal i))
                                 (seq 1 (List.length ips))));
                     ("vars", JDict [("ansible_user", JStr "ubuntu");
                                     ("server_type", JStr "webserver")])]) /\
      forall i ip, nth_error ips i = Some ip ->
        dict_get ("web-" ++ decimal (i + 1)) hostvars =
          Some (JDict [("ansible_host", ip);
                       ("ansible_user", JStr "ubuntu")]))) /\
  (dict_mem "webservers" inv = true <-> ips <> []).
Proof.
  intros Hsnap Hno Hentry Hvalue inv.
  assert (Hne : tf <> []) by (intros ->; discriminate).
  assert (Hv : output_value tf "web_instance_public_ips" (JList []) =
               Some (JList ips))
    by (unfold output_value; now rewrite Hentry, Hvalue).
  destruct (logged_runs _ _ _ (after_web_logged (JDict tf)))
    as (r & G2 & H2 & Hrest & HG2 & HH2 & _).
  assert (Hweb : exists G1 H1,
             runs (extract_servers "web_instance_public_ips" "webservers"
                     "web-" "webserver" (JDict tf)) (Ok tt) G1 H1 /\
             (ips = [] -> G1 = [] /\ H1 = []) /\
             (ips <> [] ->
              G1 = [("webservers",
                     servers_group "web-" "webserver" (List.length ips))] /\
              H1 = servers_hostvars "web-" ips)).
  { destruct ips as [|ip ips'].
    - exists [], []. split; [|split; [auto | congruence]].
      now apply (extract_servers_skip _ _ _ _ _ (JList [])).
    - eexists _, _. split; [|split; [discriminate | intros _; split; reflexivity]].
      apply (extract_servers_sized _ _ _ _ _ (JList (ip :: ips')));
        auto; discriminate. }
  destruct Hweb as (G1 & H1 & Hweb & Hnil & Hcons).
  assert (Hall : runs (_parse_individual_outputs (JDict tf)) r
                    (G1 ++ G2) (H1 ++ H2))
    by (unfold _parse_individual_outputs; eapply runs_bind_ok; eassumption).
  pose proof (get_inventory_fallback w tf r _ _ Hsnap Hne Hno Hall) as Hrun.
  assert (Hinv : inv = commit (G1 ++ G2) (H1 ++ H2) __init__ [])
    by (unfold inv; now rewrite Hrun).
  assert (Hweb_group : dict_get "webservers" inv =
                       dict_get "webservers" (assign G1 __init__)).
  { rewrite Hinv, dict_get_commit by discriminate.
    rewrite assign_app. apply dict_get_assign_other.
    apply (Forall_fst_not_In (fun g => g <> "webservers") _ _ HG2). tauto. }
  split; [|split].
  - intros doc Hdoc. rewrite Hrun in Hdoc. simpl in Hdoc.
    destruct r; [|discriminate]. injection Hdoc as <-. now rewrite Hinv.
  - exists (assign (H1 ++ H2) []). split.
    + rewrite Hinv. apply hostvars_are_of, commit_hostvars.
    + intros Hips. destruct (Hcons Hips) as [-> ->]. split.
      * rewrite Hweb_group. simpl.
        unfold servers_group. now rewrite server_names_from_1.
      * intros i ip Hi. rewrite assign_app.
        change ("web-" ++ decimal (i + 1))%string with (server_name "web-" i).
        rewrite dict_get_assign_other.
        -- now apply servers_hostvars_get.
        -- apply (Forall_fst_not_In
                    (fun h => forall j, h <> server_name "web-" j) _ _ HH2).
           intros H. now apply (H i).
  - unfold dict_mem. rewrite Hweb_group. split.
    + intros Hmem ->. destruct (Hnil eq_refl) as [-> _]. discriminate.
    + intros Hips. destruct (Hcons Hips) as [-> _]. reflexivity.
Qed.

Lemma split_head sep s : py_index (split sep s) 0 = Ok (before_first sep s).
Proof.
  unfold py_index. induction s as [|c s IH]; simpl; [reflexivity|].
  destruct (Ascii.eqb c sep); [reflexivity|].
  destruct (split sep s) as [|w ws]; simpl in *; [discriminate|].
  now injection IH as ->.
Qed.

(** [before_first sep s] is the prefix of [s] without [sep] that is
    followed by [sep] or by the end of [s]. *)
Lemma before_first_spec sep s :
  exists rest,
    s = (before_first sep s ++ rest)%string /\
    (rest = EmptyString \/ exists r, rest = String sep r) /\
    forall c, In c (list_ascii_of_string (before_first sep s)) -> c <> sep.
Proof.
  induction s as [|c s (rest & Hs & Hrest & Hno)]; simpl.
  - exists EmptyString. repeat split; [now left | intros c []].
  - destruct (Ascii.eqb c sep) eqn:E.
    + apply Ascii.eqb_eq in E. subst c. exists (String sep s).
      repeat split; [right; now exists s | intros c []].
    + apply Ascii.eqb_neq in E. exists rest. simpl. repeat split; auto.
      * now rewrite <- Hs.
      * intros c' [<-|Hin]; auto.
Qed.

Lemma extract_servers_complete output g prefix server_type tf :
  g <> "_meta" ->
  servers_complete tf output = true ->
  exists G H,
    runs (extract_servers output g prefix server_type (JDict tf)) (Ok tt) G H /\
    Forall (fun kv => fst kv = g) G /\
    Forall (fun kv => exists i, fst kv = server_name prefix i) H.
Proof.
  intros Hg. unfold servers_complete.
  destruct (output_value tf output (JList [])) as [v|] eqn:Hv; [|discriminate].
  destruct (truthy v) eqn:Ht; simpl; intros Hs.
  - assert (Hlen : exists n, py_len v = Ok n)
      by (destruct v; try discriminate; simpl; eauto).
    destruct Hlen as [n Hn].
    destruct (py_len_iter v n Hn) as [elems [He _]].
    exists [(g, servers_group prefix server_type n)],
           (servers_hostvars prefix elems).
    split; [now apply (extract_servers_sized _ _ _ _ _ v)|].
    split; [now repeat constructor|].
    apply Forall_forall. intros kv Hin. unfold servers_hostvars in Hin.
    apply in_map_iff in Hin. destruct Hin as [[i ip] [<- _]]. now exists i.
  - exists [], []. split; [now apply (extract_servers_skip _ _ _ _ _ v)|].
    split; constructor.
Qed.

Lemma extract_database_skip tf v :
  output_value tf "database_endpoint" JNull = Some v ->
  truthy v = false ->
  runs (extract_database (JDict tf)) (Ok tt) [] [].
Proof.
  intros Hv Ht. unfold extract_database.
  rewrite output_value_get, Hv.
  apply (runs_bind_lift (Ok v) _ v); [reflexivity|].
  rewrite Ht. apply runs_ret.
Qed.

Lemma extract_database_truthy tf v :
  output_value tf "database_endpoint" JNull = Some v ->
  truthy v = true ->
  exists r H,
    runs (extract_database (JDict tf)) r [("databases", databases_group)] H /\
    Forall (fun kv => fst kv = "database") H.
Proof.
  intros Hv Ht. unfold extract_database.
  rewrite output_value_get, Hv, bind_lift_Ok. cbv beta. rewrite Ht.
  match goal with
  | |- context [bind (set_group _ _) (fun _ => bind (lift ?R) _)] =>
      destruct R as [host_vars|e] eqn:ER
  end.
  - exists (Ok tt), [("database", host_vars)]. split; [|now repeat constructor].
    apply (runs_bind_ok _ _ tt (Ok tt) [("databases", databases_group)] []
             [] [("database", host_vars)]);
      [apply runs_set_group; discriminate|].
    rewrite bind_lift_Ok. apply runs_set_hostvars.
  - exists (Raise e), []. split; [|constructor].
    apply (runs_bind_ok _ _ tt (Raise e) [("databases", databases_group)] []
             [] []);
      [apply runs_set_group; discriminate|].
    apply runs_bind_raise, runs_lift.
Qed.

Lemma extract_database_string tf ep engine port :
  output_value tf "database_endpoint" JNull = Some (JStr ep) ->
  ep <> EmptyString ->
  output_value tf "database_engine" (JStr "postgres") = Some engine ->
  output_value tf "database_port" (JInt 5432) = Some port ->
  runs (extract_database (JDict tf)) (Ok tt)
    [("databases", databases_group)]
    [("database", JDict [("ansible_host", JStr (before_first ":" ep));
                         ("db_engine", engine);
                         ("db_port", port)])].
Proof.
  intros Hv Hep He Hp. unfold extract_database.
  rewrite output_value_get, Hv, bind_lift_Ok. cbv beta.
  replace (truthy (JStr ep)) with true
    by (destruct ep; [now elim Hep | reflexivity]).
  apply (runs_bind_ok _ _ tt (Ok tt) [("databases", databases_group)] []
           [] [(_, _)]);
    [apply runs_set_group; discriminate|].
  eapply runs_bind_lift; [|apply runs_set_hostvars].
  simpl py_split. unfold rbind at 1. rewrite split_head. unfold rbind at 1.
  pose proof (output_value_get tf "database_engine" (JStr "postgres")) as E1.
  pose proof (output_value_get tf "database_port" (JInt 5432)) as E2.
  rewrite He in E1. rewrite Hp in E2.
  unfold rbind in *.
  destruct (py_get (JDict tf) "database_engine" (JDict [])); [|discriminate].
  rewrite E1.
  destruct (py_get (JDict tf) "database_port" (JDict [])); [|discriminate].
  rewrite E2. reflexivity.
Qed.

Lemma runs_then_logged {A B : Type} PG PH (m1 : M A) (m2 : M B) r1 G1 H1 :
  runs m1 r1 G1 H1 -> logged PG PH m2 ->
  exists r G2 H2,
    runs (bind m1 (fun _ => m2)) r (G1 ++ G2) (H1 ++ H2) /\
    Forall (fun kv => PG (fst kv)) G2 /\
    Forall (fun kv => PH (fst kv)) H2.
Proof.
  intros Hm1 Hm2. destruct r1 as [a|e].
  - destruct (logged_runs _ _ _ Hm2) as (r & G2 & H2 & Hr & HG & HH & _).
    exists r, G2, H2. repeat split; auto.
    + apply (runs_bind_ok m1 (fun _ => m2) a r G1 H1 G2 H2 Hm1 Hr).
    + apply (runs_bind_ok m1 (fun _ => m2) a r G1 H1 G2 H2 Hm1 Hr).
  - exists (Raise e), [], []. rewrite !app_nil_r. repeat split; auto.
    + apply Hm1.
    + now apply runs_bind_raise.
Qed.

(** The two address blocks, when they run to their end, followed by [m]. *)
Lemma fallback_prefix tf (m : M unit) r G H :
  servers_complete tf "web_instance_public_ips" = true ->
  servers_complete tf "app_instance_private_ips" = true ->
  runs m r G H ->
  exists Gp Hp,
    runs (extract_servers "web_instance_public_ips" "webservers" "web-"
            "webserver" (JDict tf) ;;
          extract_servers "app_instance_private_ips" "appservers" "app-"
            "appserver" (JDict tf) ;;
          m) r (Gp ++ G) (Hp ++ H) /\
    Forall (fun kv => fst kv = "webservers" \/ fst kv = "appservers") Gp /\
    Forall (fun kv => exists i, fst kv = server_name "web-" i \/
                                fst kv = server_name "app-" i) Hp.
Proof.
  intros Hweb Happ Hm.
  destruct (extract_servers_complete _ "webservers" "web-" "webserver" tf
              ltac:(discriminate) Hweb) as (Gw & Hw & Rw & HGw & HHw).
  destruct (extract_servers_complete _ "appservers" "app-" "appserver" tf
              ltac:(discriminate) Happ) as (Ga & Ha & Ra & HGa & HHa).
  exists (Gw ++ Ga), (Hw ++ Ha). rewrite <- !app_assoc. split; [|split].
  - eapply runs_bind_ok; [exact Rw|].
    eapply runs_bind_ok; [exact Ra | exact Hm].
  - apply Forall_app. split; (eapply Forall_impl; [|eassumption]); simpl; auto.
  - apply Forall_app. split; (eapply Forall_impl; [|eassumption]); simpl;
      intros kv [i Hi]; exists i; auto.
Qed.

Lemma prefix_not_databases (Gp : list (string * json)) :
  Forall (fun kv => fst kv = "webservers" \/ fst kv = "appservers") Gp ->
  ~ In "databases" (map fst Gp) /\ ~ In "all" (map fst Gp).
Proof.
  intros HG.
  split; apply (Forall_fst_not_In
                  (fun g => g = "webservers" \/ g = "appservers") _ _ HG);
    intros [H|H]; discriminate.
Qed.

Lemma prefix_not_database (Hp : list (string * json)) :
  Forall (fun kv => exists i, fst kv = server_name "web-" i \/
                              fst kv = server_name "app-" i) Hp ->
  ~ In "database" (map fst Hp).
Proof.
  intros HH.
  apply (Forall_fst_not_In
           (fun h => exists i, h = server_name "web-" i \/
                               h = server_name "app-" i) _ _ HH).
  intros [i [H|H]]; discriminate.
Qed.

Lemma no_hosts_nil (Hc : list (string * json)) :
  Forall (fun kv => False) Hc -> Hc = [].
Proof. destruct Hc; [reflexivity|]. intros H. now inversion H. Qed.

(** The inventory left by the fallback when the endpoint has the
    value [v]. *)
Lemma database_block_state w tf v :
  get_terraform_output json_loads w (terraform_dir w) = Ok (JDict tf) ->
  tf <> [] ->
  dict_get "ansible_inventory" tf = None ->
  servers_complete tf "web_instance_public_ips" = true ->
  servers_complete tf "app_instance_private_ips" = true ->
  output_value tf "database_endpoint" JNull = Some v ->
  forall rd Gd Hd,
    runs (extract_database (JDict tf)) rd Gd Hd ->
    exists r hostvars,
      get_inventory json_loads w __init__ =
        (r, snd (get_inventory json_loads w __init__)) /\
      (forall doc, r = Ok doc ->
                   doc = JDict (snd (get_inventory json_loads w __init__))) /\
      hostvars_of (snd (get_inventory json_loads w __init__)) = Some hostvars /\
      dict_get "databases" (snd (get_inventory json_loads w __init__)) =
        dict_get "databases" (assign Gd []) /\
      dict_get "database" hostvars = dict_get "database" (assign Hd []).
Proof.
  intros Hsnap Hne Hno Hweb Happ Hv rd Gd Hd Hdb.
  destruct (runs_then_logged _ _ _ _ _ _ _ Hdb
              (add_common_vars_logged (JDict tf)))
    as (r & Gc & Hc & Htail & HGc & HHc).
  apply no_hosts_nil in HHc. subst Hc.
  destruct (fallback_prefix tf _ _ _ _ Hweb Happ Htail)
    as (Gp & Hp & Hall & HGp & HHp).
  pose proof (get_inventory_fallback w tf r _ _ Hsnap Hne Hno Hall) as Hrun.
  rewrite Hrun. simpl snd.
  eexists _, (assign (Hp ++ Hd ++ []) []). split; [reflexivity|].
  split; [|split; [|split]].
  - intros doc Hdoc. destruct r; [|discriminate]. now injection Hdoc as <-.
  - apply hostvars_are_of, commit_hostvars.
  - rewrite dict_get_commit by discriminate. rewrite !assign_app.
    rewrite dict_get_assign_other
      by (apply (Forall_fst_not_In (eq "all") _ _ HGc); discriminate).
    rewrite !dict_get_assign.
    destruct (dict_get "databases" (rev Gd)); [reflexivity|].
    rewrite dict_get_rev_None by apply (prefix_not_databases _ HGp).
    reflexivity.
  - rewrite app_nil_r, assign_app, !dict_get_assign.
    destruct (dict_get "database" (rev Hd)); [reflexivity|].
    rewrite dict_get_rev_None by apply (prefix_not_database _ HHp).
    reflexivity.
Qed.

(** C6, as amended. On a snapshot without the ["ansible_inventory"] entry
    on which the two address blocks run to their end (each of
    [web_instance_public_ips] and [app_instance_private_ips] is absent or a
    mapping whose value is absent, falsy, or a list, string or mapping), the
    fallback leaves the group [databases] in the instance exactly when the
    value of [database_endpoint] is truthy; and when that value is a
    non-empty string and the entries of [database_engine] and
    [database_port] are absent or mappings, the group is
    [{hosts: ["database"], vars: {server_type: "database"}}] and the host
    variables of ["database"] are the part of the endpoint before its first
    colon as [ansible_host], the value of [database_engine] or ["postgres"]
    as [db_engine], and the value of [database_port] or [5432] as
    [db_port]. *)
Theorem fallback_database w tf v :
  get_terraform_output json_loads w (terraform_dir w) = Ok (JDict tf) ->
  dict_get "ansible_inventory" tf = None ->
  servers_complete tf "web_instance_public_ips" = true ->
  servers_complete tf "app_instance_private_ips" = true ->
  output_value tf "database_endpoint" JNull = Some v ->
  let inv := snd (get_inventory json_loads w __init__) in
  (forall doc, fst (get_inventory json_loads w __init__) = Ok doc ->
               doc = JDict inv) /\
  (dict_mem "databases" inv = true <-> truthy v = true) /\
  (forall ep engine port,
     v = JStr ep -> ep <> EmptyString ->
     output_value tf "database_engine" (JStr "postgres") = Some engine ->
     output_value tf "database_port" (JInt 5432) = Some port ->
     dict_get "databases" inv =
       Some (JDict [("hosts", JList [JStr "database"]);
                    ("vars", JDict [("server_type", JStr "database")])]) /\
     exists hostvars host rest,
       hostvars_of inv = Some hostvars /\
       ep = (host ++ rest)%string /\
       (rest = EmptyString \/ exists r, rest = String ":" r) /\
       (forall c, In c (list_ascii_of_string host) -> c <> ":"%char) /\
       dict_get "database" hostvars =
         Some (JDict [("ansible_host", JStr host);
                      ("db_engine", engine);
                      ("db_port", port)])).
Proof.
  intros Hsnap Hno Hweb Happ Hv inv.
  destruct tf as [|kv0 tf0] eqn:Etf.
  { (* the empty snapshot: the reset, and no endpoint *)
    assert (Hrun : get_inventory json_loads w __init__ =
                   (Ok (JDict empty_inventory), empty_inventory))
      by now rewrite get_inventory_unfold, Hsnap.
    injection Hv as <-. unfold inv. rewrite Hrun. simpl.
    split; [now intros doc [= <-]|].
    split; [split; discriminate|].
    intros ep engine port Hep. discriminate. }
  rewrite <- Etf in *. assert (Hne : tf <> []) by (rewrite Etf; discriminate).
  clear Etf kv0 tf0.
  split; [|split].
  - intros doc Hdoc.
    destruct (logged_runs _ _ _ (extract_database_logged (JDict tf)))
      as (rd & Gd & Hd & Hdb & _).
    destruct (database_block_state w tf v Hsnap Hne Hno Hweb Happ Hv
                rd Gd Hd Hdb) as (r & hv & Hrun & Hret & _).
    apply Hret. rewrite Hrun in Hdoc. exact Hdoc.
  - destruct (truthy v) eqn:Ht.
    + destruct (extract_database_truthy tf v Hv Ht) as (rd & Hd & Hdb & _).
      destruct (database_block_state w tf v Hsnap Hne Hno Hweb Happ Hv
                  _ _ _ Hdb) as (r & hv & _ & _ & _ & Hgroup & _).
      unfold dict_mem, inv. rewrite Hgroup. simpl. tauto.
    + pose proof (extract_database_skip tf v Hv Ht) as Hdb.
      destruct (database_block_state w tf v Hsnap Hne Hno Hweb Happ Hv
                  _ _ _ Hdb) as (r & hv & _ & _ & _ & Hgroup & _).
      unfold dict_mem, inv. rewrite Hgroup. simpl. split; discriminate.
  - intros ep engine port -> Hep Hengine Hport.
    pose proof (extract_database_string tf ep engine port Hv Hep Hengine Hport)
      as Hdb.
    destruct (database_block_state w tf _ Hsnap Hne Hno Hweb Happ Hv
                _ _ _ Hdb) as (r & hv & _ & _ & Hhv & Hgroup & Hhost).
    split; [exact Hgroup|].
    destruct (before_first_spec ":" ep) as (rest & Hsplit & Hrest & Hnocolon).
    exists hv, (before_first ":" ep), rest. repeat split; auto.
Qed.

Lemma extract_database_complete tf :
  database_complete tf = true ->
  exists Gd Hd, runs (extract_database (JDict tf)) (Ok tt) Gd Hd.
Proof.
  unfold database_complete.
  destruct (output_value tf "database_endpoint" JNull) as [v|] eqn:Hv;
    [|discriminate].
  destruct (truthy v) eqn:Ht.
  - destruct v as [| | | |ep| |]; try discriminate.
    destruct (output_value tf "database_engine" (JStr "postgres"))
      as [engine|] eqn:He; [|discriminate].
    destruct (output_value tf "database_port" (JInt 5432))
      as [port|] eqn:Hp; [|discriminate].
    intros _. eexists _, _.
    apply (extract_database_string tf ep engine port Hv); auto.
    intros ->. discriminate.
  - intros _. exists [], []. now apply (extract_database_skip tf v).
Qed.

Lemma add_common_vars_runs tf info :
  output_value tf "infrastructure_info" (JDict []) = Some (JDict info) ->
  runs (add_common_vars (JDict tf)) (Ok tt)
    [("all",
      JDict [("vars",
              JDict [("environment",
                      dict_get_or "environment" info (JStr "unknown"));
                     ("project_name", JStr "iac-solution");
                     ("aws_region",
                      dict_get_or "region" info (JStr "us-west-2"))])])]
    [].
Proof.
  intros Hinfo. unfold add_common_vars.
  pose proof (output_value_get tf "infrastructure_info" (JDict [])) as E.
  rewrite Hinfo in E.
  eapply runs_bind_lift; [|apply runs_set_group; discriminate].
  unfold rbind in *.
  destruct (py_get (JDict tf) "infrastructure_info" (JDict []));
    [|discriminate].
  rewrite E. simpl. unfold dict_get_or.
  destruct (dict_get "environment" info), (dict_get "region" info);
    reflexivity.
Qed.

(** C9, as amended. On a non-empty snapshot without the
    ["ansible_inventory"] entry on which the blocks before run to their end
    (the two address values are absent, falsy, or a list, string or
    mapping; the endpoint value is absent or falsy, or a string with the
    engine and port entries absent or mappings; every entry read is absent
    or a mapping) and whose [infrastructure_info.value] is absent or a
    mapping, [get_inventory] returns, and the inventory has under ["all"]
    exactly [vars] with the three entries [environment] (that of the value,
    or ["unknown"]), [project_name] (["iac-solution"]) and [aws_region]
    (the [region] of the value, or ["us-west-2"]). *)
Theorem fallback_common_vars w tf info :
  get_terraform_output json_loads w (terraform_dir w) = Ok (JDict tf) ->
  tf <> [] ->
  dict_get "ansible_inventory" tf = None ->
  servers_complete tf "web_instance_public_ips" = true ->
  servers_complete tf "app_instance_private_ips" = true ->
  database_complete tf = true ->
  output_value tf "infrastructure_info" (JDict []) = Some (JDict info) ->
  exists inv,
    get_inventory json_loads w __init__ = (Ok (JDict inv), inv) /\
    dict_get "all" inv =
      Some (JDict [("vars",
                    JDict [("environment",
                            dict_get_or "environment" info (JStr "unknown"));
                           ("project_name", JStr "iac-solution");
                           ("aws_region",
                            dict_get_or "region" info (JStr "us-west-2"))])]).
Proof.
  intros Hsnap Hne Hno Hweb Happ Hdb Hinfo.
  destruct (extract_database_complete tf Hdb) as (Gd & Hd & Rdb).
  pose proof (add_common_vars_runs tf info Hinfo) as Rc.
  pose proof (runs_bind_ok _ (fun _ => add_common_vars (JDict tf)) tt _ _ _ _ _
                Rdb Rc) as Rtail.
  destruct (fallback_prefix tf _ _ _ _ Hweb Happ Rtail)
    as (Gp & Hp & Hall & _ & _).
  pose proof (get_inventory_fallback w tf _ _ _ Hsnap Hne Hno Hall) as Hrun.
  eexists. split; [exact Hrun|].
  rewrite dict_get_commit by discriminate.
  rewrite !assign_app. simpl. apply dict_get_set_same.
Qed.

(** ** The pre-built entry *)

Lemma decoded_loads raw d :
  decoded json_loads raw d ->
  match raw with
  | JStr s => loads json_loads s
  | _ => Ok raw
  end = Ok d.
Proof.
  unfold decoded, loads. destruct raw; now intros ->.
Qed.

Lemma unshaped_test d :
  unshaped d = true ->
  rbind (py_contains "all" d)
        (fun has_all : bool =>
           if has_all
           then rbind (py_getitem d "all")
                      (fun all => py_contains "children" all)
           else Ok false) = Ok false.
Proof.
  unfold unshaped. destruct (lacks "all" d) eqn:Hall; simpl.
  - intros _. destruct d; try discriminate; simpl in *;
      apply negb_true_iff in Hall; now rewrite Hall.
  - destruct d as [| | | | | |dd]; try discriminate.
    destruct (dict_get "all" dd) as [a|] eqn:Ha; [|discriminate].
    intros Hch. simpl. unfold dict_mem. rewrite Ha. simpl.
    destruct a; try discriminate; simpl in *;
      apply negb_true_iff in Hch; now rewrite Hch.
Qed.

Lemma parse_designated tf entry s :
  dict_get "ansible_inventory" tf = Some entry ->
  parse_ansible_inventory json_loads (JDict tf) s =
  parse_prebuilt json_loads entry s.
Proof.
  intros Htf. unfold parse_ansible_inventory, bind, lift. simpl.
  unfold dict_mem. now rewrite Htf.
Qed.

(** C10, as amended. On a snapshot whose ["ansible_inventory"] entry has a
    value that, once decoded, is a mapping, list or string without
    ["all"], or a mapping whose ["all"] is a mapping, list or string
    without ["children"], [get_inventory] on a new instance returns exactly
    [{"_meta": {"hostvars": {}}}]: no group, no ["all"], and nothing from
    the other outputs of the snapshot. *)
Theorem prebuilt_unshaped w tf entry raw d :
  get_terraform_output json_loads w (terraform_dir w) = Ok (JDict tf) ->
  dict_get "ansible_inventory" tf = Some (JDict entry) ->
  dict_get "value" entry = Some raw ->
  decoded json_loads raw d ->
  unshaped d = true ->
  get_inventory json_loads w __init__ =
  (Ok (JDict [("_meta", JDict [("hostvars", JDict [])])]),
   [("_meta", JDict [("hostvars", JDict [])])]).
Proof.
  intros Hsnap Hentry Hraw Hdec Hun.
  rewrite get_inventory_unfold, Hsnap.
  rewrite (truthy_has_key _ _ _ Hentry).
  rewrite (parse_designated _ _ _ Hentry).
  unfold parse_prebuilt. simpl py_getitem. rewrite Hraw.
  unfold rbind at 1. rewrite (decoded_loads raw d Hdec).
  rewrite bind_lift_Ok. cbv beta.
  rewrite (unshaped_test d Hun). reflexivity.
Qed.

Lemma process_group_complete g group_vars children :
  g <> "_meta" ->
  group_complete children g = true ->
  exists G H,
    runs (process_group g group_vars (JDict children)) (Ok tt) G H /\
    Forall (fun kv => fst kv = g) G.
Proof.
  intros Hg. unfold group_complete, process_group. simpl py_contains.
  unfold dict_mem.
  destruct (dict_get g children) as [group|] eqn:Hgroup.
  - destruct group as [| | | | | |group]; try discriminate.
    simpl. rewrite Hgroup. simpl. unfold dict_mem.
    destruct (dict_get "hosts" group) as [hosts|] eqn:Hhosts.
    + destruct hosts as [| | | | | |hd]; try discriminate. intros _.
      rewrite bind_lift_Ok. cbv beta. simpl.
      rewrite bind_lift_Ok. cbv beta.
      eexists [(g, _)], (map (fun x : string * json =>
                                let '(host, vars) := x in (host, vars)) hd).
      split; [|now repeat constructor].
      apply (runs_bind_ok _ _ tt (Ok tt) [(g, _)] [] [] _);
        [now apply runs_set_group|].
      rewrite bind_lift_Ok.
      apply runs_for_each. intros [host vars] _. apply runs_set_hostvars.
    + intros _. exists [], []. split; [apply runs_ret | constructor].
  - intros _. simpl. exists [], []. split; [apply runs_ret | constructor].
Qed.

(** C7, as amended. On a snapshot whose ["ansible_inventory"] entry has a
    value that, once decoded, is a mapping whose ["all"] is a mapping with
    both ["children"] and ["vars"], where [children] is a mapping whose
    [webservers], [appservers] and [databases], when present, are mappings
    whose ["hosts"], when present, is a mapping, [get_inventory] returns,
    and the inventory has under ["all"] exactly [{"vars": vars}] with the
    [vars] of the entry. *)
Theorem prebuilt_all_vars w tf entry raw dd all children vars :
  get_terraform_output json_loads w (terraform_dir w) = Ok (JDict tf) ->
  dict_get "ansible_inventory" tf = Some (JDict entry) ->
  dict_get "value" entry = Some raw ->
  decoded json_loads raw (JDict dd) ->
  dict_get "all" dd = Some (JDict all) ->
  dict_get "children" all = Some (JDict children) ->
  group_complete children "webservers" = true ->
  group_complete children "appservers" = true ->
  group_complete children "databases" = true ->
  dict_get "vars" all = Some vars ->
  exists inv,
    get_inventory json_loads w __init__ = (Ok (JDict inv), inv) /\
    dict_get "all" inv = Some (JDict [("vars", vars)]).
Proof.
  intros Hsnap Hentry Hraw Hdec Hall Hchildren Hweb Happ Hdb Hvars.
  destruct (process_group_complete "webservers" webservers_vars children
              ltac:(discriminate) Hweb) as (G1 & H1 & R1 & _).
  destruct (process_group_complete "appservers" appservers_vars children
              ltac:(discriminate) Happ) as (G2 & H2 & R2 & _).
  destruct (process_group_complete "databases" databases_vars children
              ltac:(discriminate) Hdb) as (G3 & H3 & R3 & _).
  assert (Hrun : runs (parse_prebuilt json_loads (JDict entry)) (Ok tt)
                   (G1 ++ G2 ++ G3 ++ [("all", JDict [("vars", vars)])])
                   (H1 ++ H2 ++ H3 ++ [])).
  { unfold parse_prebuilt. simpl py_getitem. rewrite Hraw.
    unfold rbind at 1. rewrite (decoded_loads raw _ Hdec).
    rewrite bind_lift_Ok. cbv beta. simpl. unfold dict_mem.
    rewrite Hall. simpl. unfold dict_mem. rewrite Hchildren, Hvars. simpl.
    rewrite !bind_lift_Ok. cbv beta.
    eapply runs_bind_ok; [exact R1|].
    eapply runs_bind_ok; [exact R2|].
    eapply runs_bind_ok; [exact R3|].
    rewrite ?bind_lift_Ok. apply runs_set_group. discriminate. }
  destruct Hrun as [_ Hrun].
  exists (commit (G1 ++ G2 ++ G3 ++ [("all", JDict [("vars", vars)])])
                 (H1 ++ H2 ++ H3 ++ []) __init__ []).
  split.
  - rewrite get_inventory_unfold, Hsnap.
    rewrite (truthy_has_key _ _ _ Hentry).
    rewrite (parse_designated _ _ _ Hentry).
    now rewrite (Hrun __init__ [] hostvars_are_init).
  - rewrite dict_get_commit by discriminate.
    rewrite !assign_app. simpl. apply dict_get_set_same.
Qed.

(** * Further properties of the script *)

(** ** Acquisition and the queries *)


(** X2. When [terraform] cannot be started, the [OSError] of
    [subprocess.run] is caught by neither [except] clause: [get_inventory]
    and [get_host] raise it and leave the instance as it was, and [main]
    ends with it for [--list] and for [--host] with a non-empty name. *)
Theorem not_started_raises w s hostname c rest :
  terraform_output_json w (terraform_dir w) = NotStarted ->
  get_inventory json_loads w s = (Raise OSError, s) /\
  get_host json_loads w hostname s = (Raise OSError, s) /\
  main json_loads w {| args_list := true; args_host := Some hostname |} =
    Raise OSError /\
  main json_loads w {| args_list := false;
                       args_host := Some (String c rest) |} =
    Raise OSError.
Proof.
  intros Hw.
  assert (Hrun : forall s0, get_inventory json_loads w s0 = (Raise OSError, s0)).
  { intros s0. rewrite get_inventory_unfold.
    unfold get_terraform_output. now rewrite Hw. }
  repeat split.
  - apply Hrun.
  - unfold get_host, bind. now rewrite Hrun.
  - unfold main. simpl. now rewrite Hrun.
  - unfold main. simpl. unfold get_host, bind. now rewrite Hrun.
Qed.

(** The parse of a value that is not an object: the membership test, the
    subscript that follows it or the first [.get] raises. *)
Lemma parse_non_object_raises tf :
  truthy tf = true ->
  (forall d, tf <> JDict d) ->
  exists e, (e = TypeError \/ e = AttributeError) /\
    forall s, parse_ansible_inventory json_loads tf s = (Raise e, s).
Proof.
  intros Ht Hobj. unfold parse_ansible_inventory, bind, lift.
  destruct tf as [|b|z|f|t|l|d]; simpl;
    try (exists TypeError; split; [now left | reflexivity]).
  - destruct (is_substring "ansible_inventory" t).
    + exists TypeError. split; [now left | reflexivity].
    + exists AttributeError. split; [now right | reflexivity].
  - destruct (existsb (str_equal "ansible_inventory") l).
    + exists TypeError. split; [now left | reflexivity].
    + exists AttributeError. split; [now right | reflexivity].
  - now elim (Hobj d).
Qed.

(** X3. When the outputs are a truthy JSON value that is not an object (a
    number, [true], a non-empty string or list), [get_inventory] raises
    [TypeError] or [AttributeError] and leaves the instance as it was: no
    inventory is returned, not even the empty one. *)
Theorem non_object_outputs_raise w tf :
  get_terraform_output json_loads w (terraform_dir w) = Ok tf ->
  truthy tf = true ->
  (forall d, tf <> JDict d) ->
  exists e,
    (e = TypeError \/ e = AttributeError) /\
    forall s, get_inventory json_loads w s = (Raise e, s).
Proof.
  intros Hsnap Ht Hobj.
  destruct (parse_non_object_raises tf Ht Hobj) as (e & He & Hparse).
  exists e. split; [exact He|].
  intros s. now rewrite get_inventory_unfold, Hsnap, Ht, Hparse.
Qed.

(** ** Decoding of the pre-built value *)



(** X6. A designated entry that is a mapping without ["value"] makes
    [get_inventory] raise [KeyError] for that key and leaves the instance
    as it was; the flat outputs of the snapshot are not consulted. *)
Theorem entry_without_value_raises w tf entry s :
  get_terraform_output json_loads w (terraform_dir w) = Ok (JDict tf) ->
  dict_get "ansible_inventory" tf = Some (JDict entry) ->
  dict_get "value" entry = None ->
  get_inventory json_loads w s = (Raise (KeyError "value"), s).
Proof.
  intros Hsnap Hentry Hvalue.
  rewrite get_inventory_unfold, Hsnap, (truthy_has_key _ _ _ Hentry).
  rewrite (parse_designated _ _ _ Hentry).
  unfold parse_prebuilt, bind, lift. simpl. now rewrite Hvalue.
Qed.

(** ** The command line *)

(** X7. [main] prints the usage text exactly when [--list] is not given
    and [--host] is not given or has the empty string as operand; with
    [--list] the operand of [--host] is ignored. *)
Theorem main_dispatch w args :
  (main json_loads w args = Ok Help <->
   args_list args = false /\
   (args_host args = None \/ args_host args = Some EmptyString)) /\
  (args_list args = true ->
   main json_loads w args =
   main json_loads w {| args_list := true; args_host := None |}).
Proof.
  destruct args as [l h]. unfold main. simpl. split.
  - destruct l.
    + destruct (get_inventory json_loads w __init__) as [[doc|e] s'];
        split; try discriminate; intros [H _]; discriminate.
    + destruct h as [[|c rest]|]; simpl.
      * split; auto.
      * destruct (get_host json_loads w (String c rest) __init__)
          as [[hv|e] s'];
          split; try discriminate; intros [_ [H|H]]; discriminate.
      * split; auto.
  - now intros ->.
Qed.

(** X8. The two queries of the command line see the same inventory: when
    [--list] prints a document, [--host] prints, for every non-empty host
    name, the entry of that name in the [_meta.hostvars] of the document,
    or the empty mapping; and when [--list] ends with an exception,
    [--host] ends with the same one. *)
Theorem main_host_agrees_with_list w c rest :
  (forall doc,
     main json_loads w {| args_list := true; args_host := None |} =
       Ok (Dumped doc) ->
     exists inv hostvars,
       doc = JDict inv /\
       hostvars_of inv = Some hostvars /\
       main json_loads w {| args_list := false;
                            args_host := Some (String c rest) |} =
         Ok (Dumped (dict_get_or (String c rest) hostvars (JDict [])))) /\
  (forall e,
     main json_loads w {| args_list := true; args_host := None |} = Raise e ->
     main json_loads w {| args_list := false;
                          args_host := Some (String c rest) |} = Raise e).
Proof.
  unfold main. simpl.
  destruct (get_inventory json_loads w __init__) as [[doc0|e0] s'] eqn:Hrun.
  - split; [|discriminate]. intros doc [= <-].
    destruct (get_inventory_hostvars w __init__ [] _ _ hostvars_are_init Hrun)
      as [hv Hhv].
    pose proof (get_inventory_returns_self w _ _ _ Hrun) as ->.
    exists s', hv. split; [reflexivity|]. split; [now apply hostvars_are_of|].
    unfold get_host, bind. rewrite Hrun. unfold lift. simpl.
    unfold hostvars_are in Hhv. rewrite Hhv. simpl. unfold dict_get_or.
    now destruct (dict_get (String c rest) hv).
  - split; [discriminate|]. intros e [= <-].
    unfold get_host, bind. now rewrite Hrun.
Qed.

(** ** Groups written and exceptions raised *)

Lemma tracked_lift {A : Type} PG E (r : result A) :
  raises_only E r -> tracked PG E (lift r).
Proof.
  intros Hr. exists r, [], [].
  split; [apply runs_lift|]. split; [constructor | exact Hr].
Qed.

Lemma tracked_ret {A : Type} PG E (a : A) : tracked PG E (ret a).
Proof. apply (tracked_lift PG E (Ok a)). intros e. discriminate. Qed.

Lemma tracked_bind {A B : Type} PG E (m : M A) (k : A -> M B) :
  tracked PG E m -> (forall a, tracked PG E (k a)) -> tracked PG E (bind m k).
Proof.
  intros (r1 & G1 & H1 & R1 & HG1 & HE1) Hk. destruct r1 as [a|e].
  - destruct (Hk a) as (r2 & G2 & H2 & R2 & HG2 & HE2).
    exists r2, (G1 ++ G2), (H1 ++ H2).
    split; [apply (runs_bind_ok m k a r2 G1 H1 G2 H2 R1 R2)|].
    split; [now apply Forall_app | exact HE2].
  - exists (Raise e), G1, H1.
    split; [now apply runs_bind_raise|]. split; [assumption|].
    intros e' [= <-]. now apply HE1.
Qed.

Lemma tracked_bind_lift {A B : Type} PG E (r : result A) (k : A -> M B) :
  raises_only E r ->
  (forall a, r = Ok a -> tracked PG E (k a)) ->
  tracked PG E (bind (lift r) k).
Proof.
  intros Hr Hk. destruct r as [a|e].
  - rewrite bind_lift_Ok. now apply Hk.
  - exists (Raise e), [], [].
    split; [apply (runs_bind_raise (lift (Raise e)) k e [] []), runs_lift|].
    split; [constructor|]. intros e' [= <-]. now apply Hr.
Qed.

Lemma tracked_set_group PG E g v :
  PG g -> g <> "_meta" -> tracked PG E (set_group g v).
Proof.
  intros HP Hg. exists (Ok tt), [(g, v)], [].
  split; [now apply runs_set_group|].
  split; [now repeat constructor | intros e; discriminate].
Qed.

Lemma tracked_set_hostvars PG E h v : tracked PG E (set_hostvars h v).
Proof.
  exists (Ok tt), [], [(h, v)].
  split; [apply runs_set_hostvars|].
  split; [constructor | intros e; discriminate].
Qed.

Lemma tracked_for_each {A : Type} PG E (l : list A) (body : A -> M unit) :
  (forall x, tracked PG E (body x)) -> tracked PG E (for_each l body).
Proof.
  intros Hbody. induction l as [|x l IH]; simpl.
  - apply tracked_ret.
  - apply tracked_bind; auto.
Qed.

Lemma tracked_weaken {A : Type} (PG PG' : string -> Prop)
    (E E' : exn -> Prop) (m : M A) :
  (forall g, PG g -> PG' g) -> (forall e, E e -> E' e) ->
  tracked PG E m -> tracked PG' E' m.
Proof.
  intros HG HE (r & G & H & R & HPG & Hr). exists r, G, H.
  split; [exact R|]. split.
  - eapply Forall_impl; [|exact HPG]. simpl. auto.
  - intros e He. auto.
Qed.

(** The case analysis of a chain of lookups on the shape of the values. *)
Ltac lookup_cases :=
  repeat match goal with
         | H : context [match ?x with _ => _ end] |- _ =>
             destruct x eqn:?; simpl in H; try discriminate
         | |- context [match ?x with _ => _ end] =>
             destruct x eqn:?; simpl; try discriminate
         end.

Ltac raises_cases :=
  unfold raises_only, rbind, py_contains, py_getitem, py_get, py_keys,
    py_items, py_len, py_iter, py_split, dict_mem in *;
  intros;
  lookup_cases;
  repeat match goal with
         | H : Raise _ = Raise _ |- _ => injection H as <-
         | H : Ok _ = Ok _ |- _ => injection H as <-
         end;
  unfold parse_errors, type_errors; try discriminate; auto.

Lemma process_group_tracked g group_vars children :
  g <> "_meta" ->
  tracked (eq g) type_errors (process_group g group_vars children).
Proof.
  intros Hg. unfold process_group.
  apply tracked_bind_lift; [raises_cases|]. intros present Hpresent.
  destruct present; [|apply tracked_ret].
  apply tracked_bind_lift; [raises_cases|]. intros names Hnames.
  apply tracked_bind; [now apply tracked_set_group|]. intros _.
  apply tracked_bind_lift; [raises_cases|]. intros items _.
  apply tracked_for_each. intros [host vars]. apply tracked_set_hostvars.
Qed.

Lemma extract_servers_tracked output g prefix server_type tf_outputs :
  g <> "_meta" ->
  tracked (eq g) type_errors
    (extract_servers output g prefix server_type tf_outputs).
Proof.
  intros Hg. unfold extract_servers.
  apply tracked_bind_lift; [raises_cases|]. intros ips _.
  destruct (truthy ips); [|apply tracked_ret].
  apply tracked_bind_lift; [raises_cases|]. intros n Hn.
  apply tracked_bind; [now apply tracked_set_group|]. intros _.
  apply tracked_bind_lift; [raises_cases|]. intros elems _.
  apply tracked_for_each. intros [i ip]. apply tracked_set_hostvars.
Qed.

(** The subscript [[0]] after [split] is never out of range. *)
Lemma extract_database_tracked tf_outputs :
  tracked (eq "databases") type_errors (extract_database tf_outputs).
Proof.
  unfold extract_database.
  apply tracked_bind_lift; [raises_cases|]. intros db_endpoint _.
  destruct (truthy db_endpoint); [|apply tracked_ret].
  apply tracked_bind; [apply tracked_set_group; [reflexivity|discriminate]|].
  intros _.
  apply tracked_bind_lift; [|intros host_vars _; apply tracked_set_hostvars].
  destruct db_endpoint; try (intros e [= <-]; now right).
  simpl py_split. unfold rbind at 1. rewrite split_head. raises_cases.
Qed.

Lemma add_common_vars_tracked tf_outputs :
  tracked (eq "all") type_errors (add_common_vars tf_outputs).
Proof.
  unfold add_common_vars.
  apply tracked_bind_lift; [raises_cases|]. intros common _.
  apply tracked_set_group; [reflexivity | discriminate].
Qed.

Ltac vocabulary :=
  unfold group_vocabulary; intros ? <-; auto.

Lemma _parse_individual_outputs_tracked tf_outputs :
  tracked group_vocabulary type_errors (_parse_individual_outputs tf_outputs).
Proof.
  unfold _parse_individual_outputs.
  repeat (apply tracked_bind; [|intros _]).
  - eapply tracked_weaken; [| |apply extract_servers_tracked; discriminate];
      [vocabulary | auto].
  - eapply tracked_weaken; [| |apply extract_servers_tracked; discriminate];
      [vocabulary | auto].
  - eapply tracked_weaken; [| |apply extract_database_tracked];
      [vocabulary | auto].
  - eapply tracked_weaken; [| |apply add_common_vars_tracked];
      [vocabulary | auto].
Qed.

Lemma parse_prebuilt_tracked entry :
  tracked group_vocabulary parse_errors (parse_prebuilt json_loads entry).
Proof.
  unfold parse_prebuilt.
  apply tracked_bind_lift.
  { unfold loads. raises_cases. }
  intros inventory_data _.
  apply tracked_bind_lift; [raises_cases|]. intros shaped Hshaped.
  destruct shaped; [|apply tracked_ret].
  apply tracked_bind_lift; [raises_cases|]. intros children _.
  repeat (apply tracked_bind;
          [eapply tracked_weaken;
           [| |apply process_group_tracked; discriminate];
           [vocabulary | unfold parse_errors; auto]
          |intros _]).
  apply tracked_bind_lift; [raises_cases|]. intros has_vars Hhas.
  destruct has_vars; [|apply tracked_ret].
  apply tracked_bind_lift; [raises_cases|]. intros vars _.
  apply tracked_set_group; [unfold group_vocabulary; auto | discriminate].
Qed.

Lemma parse_ansible_inventory_tracked tf_outputs :
  tracked group_vocabulary parse_errors
    (parse_ansible_inventory json_loads tf_outputs).
Proof.
  unfold parse_ansible_inventory.
  apply tracked_bind_lift; [raises_cases|]. intros designated Hd.
  destruct designated.
  - apply tracked_bind_lift; [raises_cases|]. intros entry _.
    apply parse_prebuilt_tracked.
  - eapply tracked_weaken; [| |apply _parse_individual_outputs_tracked];
      [auto | unfold parse_errors; auto].
Qed.

(** A run of [get_inventory] on truthy outputs. *)
Lemma get_inventory_tracked w tf :
  get_terraform_output json_loads w (terraform_dir w) = Ok tf ->
  truthy tf = true ->
  exists (r : result unit) G H,
    Forall (fun kv => fst kv <> "_meta") G /\
    Forall (fun kv => group_vocabulary (fst kv)) G /\
    raises_only parse_errors r /\
    (dict_get "ansible_inventory" (match tf with JDict d => d | _ => [] end)
       = None ->
     raises_only type_errors r) /\
    forall s hv, hostvars_are s hv ->
      get_inventory json_loads w s =
      (match r with
       | Ok _ => Ok (JDict (commit G H s hv))
       | Raise e => Raise e
       end, commit G H s hv).
Proof.
  intros Hsnap Ht.
  assert (Hrun : forall r G H,
             runs (parse_ansible_inventory json_loads tf) r G H ->
             forall s hv, hostvars_are s hv ->
               get_inventory json_loads w s =
               (match r with
                | Ok _ => Ok (JDict (commit G H s hv))
                | Raise e => Raise e
                end, commit G H s hv)).
  { intros r G H [_ Hr] s hv Hs.
    rewrite get_inventory_unfold, Hsnap, Ht, (Hr s hv Hs). now destruct r. }
  destruct (parse_ansible_inventory_tracked tf) as (r & G & H & R & HG & HE).
  exists r, G, H. split; [apply R|]. split; [exact HG|]. split; [exact HE|].
  split; [|now apply Hrun].
  intros Hno e He.
  destruct tf as [| | | | | |d];
    try (destruct (parse_non_object_raises _ Ht) as (e' & He' & Hraise);
         [discriminate|];
         destruct R as [_ R];
         pose proof (R __init__ [] hostvars_are_init) as Hr';
         rewrite Hraise, He in Hr'; now injection Hr' as <-).
  destruct (_parse_individual_outputs_tracked (JDict d))
    as (r' & G' & H' & R' & _ & HE').
  destruct R as [_ R], R' as [_ R'].
  pose proof (R __init__ [] hostvars_are_init) as E1.
  pose proof (R' __init__ [] hostvars_are_init) as E2.
  rewrite parse_fallback in E1 by exact Hno. rewrite E1 in E2.
  injection E2 as <- _. now apply HE'.
Qed.

(** X9. The script writes no group outside its vocabulary: after
    [get_inventory] on a new instance, whether it returned or raised, the
    keys of the inventory are among ["_meta"], ["webservers"],
    ["appservers"], ["databases"] and ["all"]; no output of [terraform]
    can add another group. *)
Theorem groups_within_vocabulary w r s' :
  get_inventory json_loads w __init__ = (r, s') ->
  forall k, In k (dict_keys s') ->
    k = "_meta" \/ k = "webservers" \/ k = "appservers" \/
    k = "databases" \/ k = "all".
Proof.
  intros Hrun k Hk.
  destruct (get_terraform_output json_loads w (terraform_dir w))
    as [tf|e] eqn:Hsnap.
  - destruct (truthy tf) eqn:Ht.
    + destruct (get_inventory_tracked w tf Hsnap Ht)
        as (r0 & G & H & _ & HG & _ & _ & Hr).
      rewrite (Hr __init__ [] hostvars_are_init) in Hrun.
      injection Hrun as _ <-.
      apply dict_mem_In in Hk. unfold commit in Hk.
      rewrite dict_mem_set in Hk. apply orb_true_iff in Hk.
      destruct Hk as [Hk|Hk]; [apply String.eqb_eq in Hk; auto|].
      apply dict_mem_assign in Hk. destruct Hk as [Hk|Hk].
      * right. apply in_map_iff in Hk. destruct Hk as [kv [<- Hin]].
        rewrite Forall_forall in HG. apply (HG kv Hin).
      * apply dict_mem_In in Hk. simpl in Hk. destruct Hk as [<-|[]]. auto.
    + rewrite get_inventory_unfold, Hsnap, Ht in Hrun.
      injection Hrun as _ <-. simpl in Hk.
      destruct Hk as [<-|[<-|[]]]; auto.
  - rewrite get_inventory_unfold, Hsnap in Hrun. injection Hrun as _ <-.
    simpl in Hk. destruct Hk as [<-|[]]. auto.
Qed.


(** ** A reused instance *)

Lemma dict_keys_set_extend k v d :
  exists added, dict_keys (dict_set k v d) = dict_keys d ++ added.
Proof.
  destruct (dict_mem k d) eqn:E.
  - exists []. rewrite app_nil_r. now apply dict_keys_set_mem.
  - exists [k]. now apply dict_keys_set_new.
Qed.

Lemma dict_keys_assign_extend l d :
  exists added, dict_keys (assign l d) = dict_keys d ++ added.
Proof.
  revert d. induction l as [|[k v] l IH]; intros d; simpl.
  - exists []. now rewrite app_nil_r.
  - destruct (IH (dict_set k v d)) as [a2 H2].
    destruct (dict_keys_set_extend k v d) as [a1 H1].
    exists (a1 ++ a2). now rewrite H2, H1, app_assoc.
Qed.

(** X11. [get_inventory] rebuilds nothing unless the outputs are falsy: on
    truthy outputs, whether it returns or raises, the instance keeps every
    group and every host it had, in the same order, and new ones come
    after them. A second call on the same instance therefore still shows
    the hosts of the first that the new outputs no longer mention. *)
Theorem reused_instance_keeps_entries w tf s hv r s' :
  get_terraform_output json_loads w (terraform_dir w) = Ok tf ->
  truthy tf = true ->
  hostvars_are s hv ->
  get_inventory json_loads w s = (r, s') ->
  exists hv' new_groups new_hosts,
    hostvars_are s' hv' /\
    dict_keys s' = dict_keys s ++ new_groups /\
    dict_keys hv' = dict_keys hv ++ new_hosts.
Proof.
  intros Hsnap Ht Hs Hrun.
  destruct (get_inventory_tracked w tf Hsnap Ht)
    as (r0 & G & H & HG & _ & _ & _ & Hr).
  rewrite (Hr s hv Hs) in Hrun. injection Hrun as _ <-.
  destruct (dict_keys_assign_extend G s) as [new_groups HGk].
  destruct (dict_keys_assign_extend H hv) as [new_hosts HHk].
  exists (assign H hv), new_groups, new_hosts.
  split; [apply commit_hostvars|]. split; [|exact HHk].
  unfold commit. rewrite dict_keys_set_mem; [exact HGk|].
  unfold dict_mem. rewrite dict_get_meta_assign by exact HG. now rewrite Hs.
Qed.

(** X12. The hosts of the groups stay covered on a reused instance: when
    every name in the ["hosts"] of an entry of the instance is a key of its
    [_meta.hostvars], the same holds of the inventory that [get_inventory]
    returns, for the groups it wrote and for those it found. *)
Theorem reused_instance_hosts_covered w s hv doc s' :
  hostvars_are s hv ->
  (forall g grp x, dict_get g s = Some grp -> In x (group_hosts grp) ->
     exists h, x = JStr h /\ dict_mem h hv = true) ->
  get_inventory json_loads w s = (Ok doc, s') ->
  doc = JDict s' /\
  exists hv', hostvars_of s' = Some hv' /\
    forall g group hosts x,
      dict_get g s' = Some (JDict group) ->
      dict_get "hosts" group = Some (JList hosts) ->
      In x hosts ->
      exists h, x = JStr h /\ dict_mem h hv' = true.
Proof.
  intros Hs Hcov Hrun.
  split; [now apply (get_inventory_returns_self w s)|].
  destruct (get_inventory_covered w s hv doc s' Hs Hcov Hrun)
    as (hv' & Hhv' & Hcov').
  exists hv'. split; [now apply hostvars_are_of|].
  intros g group hosts x Hg Hhosts Hx.
  apply (Hcov' g (JDict group) x Hg). simpl. now rewrite Hhosts.
Qed.

(** ** The application servers of the fallback *)



Lemma app_name_not_web i j : server_name "web-" i <> server_name "app-" j.
Proof. discriminate. Qed.



(** ** The groups and hosts of the pre-built entry *)

Lemma map_pair_eta (l : list (string * json)) :
  map (fun x : string * json => let '(h, v) := x in (h, v)) l = l.
Proof. induction l as [|[h v] l IH]; simpl; congruence. Qed.

Lemma dict_get_rev_NoDup k (d : dict) :
  NoDup (dict_keys d) -> dict_get k (rev d) = dict_get k d.
Proof.
  intros Hnd. destruct (dict_get k d) as [v|] eqn:E.
  - apply dict_get_In_NoDup.
    + unfold dict_keys. rewrite map_rev. now apply NoDup_rev.
    + apply in_rev. rewrite rev_involutive. now apply dict_get_In.
  - apply dict_get_rev_None. now apply dict_get_None_In.
Qed.

Lemma process_group_runs g group_vars children :
  g <> "_meta" ->
  group_complete children g = true ->
  runs (process_group g group_vars (JDict children)) (Ok tt)
    (assignment_of g (prebuilt_group children g group_vars))
    (hosts_or_empty children g).
Proof.
  intros Hg. unfold group_complete, prebuilt_group, hosts_or_empty,
    prebuilt_hosts, process_group.
  simpl py_contains. unfold dict_mem.
  destruct (dict_get g children) as [group|] eqn:Hgroup.
  - destruct group as [| | | | | |group]; try discriminate.
    simpl. rewrite Hgroup. simpl. unfold dict_mem.
    destruct (dict_get "hosts" group) as [hosts|] eqn:Hhosts.
    + destruct hosts as [| | | | | |hd]; try discriminate. intros _.
      rewrite bind_lift_Ok. cbv beta. simpl.
      rewrite bind_lift_Ok. cbv beta. simpl.
      rewrite <- (map_pair_eta hd) at 3.
      apply (runs_bind_ok _ _ tt (Ok tt) [(g, _)] [] [] _);
        [now apply runs_set_group|].
      rewrite bind_lift_Ok.
      apply runs_for_each. intros [host vars] _. apply runs_set_hostvars.
    + intros _. apply runs_ret.
  - intros _. simpl. apply runs_ret.
Qed.

(** The run of [get_inventory] on a pre-built value of the expected
    shape. *)
Lemma prebuilt_run w tf entry raw dd all children :
  get_terraform_output json_loads w (terraform_dir w) = Ok (JDict tf) ->
  dict_get "ansible_inventory" tf = Some (JDict entry) ->
  dict_get "value" entry = Some raw ->
  decoded json_loads raw (JDict dd) ->
  dict_get "all" dd = Some (JDict all) ->
  dict_get "children" all = Some (JDict children) ->
  group_complete children "webservers" = true ->
  group_complete children "appservers" = true ->
  group_complete children "databases" = true ->
  get_inventory json_loads w __init__ =
  (Ok (JDict
         (commit
            (assignment_of "webservers"
               (prebuilt_group children "webservers" webservers_vars) ++
             assignment_of "appservers"
               (prebuilt_group children "appservers" appservers_vars) ++
             assignment_of "databases"
               (prebuilt_group children "databases" databases_vars) ++
             assignment_of "all"
               (option_map (fun vars => JDict [("vars", vars)])
                           (dict_get "vars" all)))
            (hosts_or_empty children "webservers" ++
             hosts_or_empty children "appservers" ++
             hosts_or_empty children "databases" ++ [])
            __init__ [])),
   commit
     (assignment_of "webservers"
        (prebuilt_group children "webservers" webservers_vars) ++
      assignment_of "appservers"
        (prebuilt_group children "appservers" appservers_vars) ++
      assignment_of "databases"
        (prebuilt_group children "databases" databases_vars) ++
      assignment_of "all"
        (option_map (fun vars => JDict [("vars", vars)])
                    (dict_get "vars" all)))
     (hosts_or_empty children "webservers" ++
      hosts_or_empty children "appservers" ++
      hosts_or_empty children "databases" ++ [])
     __init__ []).
Proof.
  intros Hsnap Hentry Hraw Hdec Hall Hchildren Hweb Happ Hdb.
  pose proof (process_group_runs "webservers" webservers_vars children
                ltac:(discriminate) Hweb) as R1.
  pose proof (process_group_runs "appservers" appservers_vars children
                ltac:(discriminate) Happ) as R2.
  pose proof (process_group_runs "databases" databases_vars children
                ltac:(discriminate) Hdb) as R3.
  match goal with
  | |- _ = (_, commit ?G ?H _ _) =>
      assert (Hrun : runs (parse_prebuilt json_loads (JDict entry)) (Ok tt) G H)
  end.
  { unfold parse_prebuilt. simpl py_getitem. rewrite Hraw.
    unfold rbind at 1. rewrite (decoded_loads raw _ Hdec).
    rewrite bind_lift_Ok. cbv beta. simpl. unfold dict_mem.
    rewrite Hall. simpl. unfold dict_mem. rewrite Hchildren. simpl.
    rewrite !bind_lift_Ok. cbv beta.
    eapply runs_bind_ok; [exact R1|].
    eapply runs_bind_ok; [exact R2|].
    eapply runs_bind_ok; [exact R3|].
    destruct (dict_get "vars" all) as [vars|]; simpl.
    - rewrite ?bind_lift_Ok. apply runs_set_group. discriminate.
    - rewrite ?bind_lift_Ok. apply runs_ret. }
  destruct Hrun as [_ Hrun].
  rewrite get_inventory_unfold, Hsnap.
  rewrite (truthy_has_key _ _ _ Hentry).
  rewrite (parse_designated _ _ _ Hentry).
  now rewrite (Hrun __init__ [] hostvars_are_init).
Qed.

(** X14. The groups of the preferred path: on a pre-built value of the
    expected shape, [get_inventory] returns, and each of [webservers],
    [appservers] and [databases] is in the inventory exactly when the
    sub-group of that name has a ["hosts"] mapping; its [hosts] are the
    keys of that mapping in their order and its [vars] are the fixed
    defaults of the group, whatever variables the sub-group itself
    declares. ["all"] is there exactly when the ["all"] of the value has
    ["vars"], and holds them alone. *)
Theorem prebuilt_groups w tf entry raw dd all children :
  get_terraform_output json_loads w (terraform_dir w) = Ok (JDict tf) ->
  dict_get "ansible_inventory" tf = Some (JDict entry) ->
  dict_get "value" entry = Some raw ->
  decoded json_loads raw (JDict dd) ->
  dict_get "all" dd = Some (JDict all) ->
  dict_get "children" all = Some (JDict children) ->
  group_complete children "webservers" = true ->
  group_complete children "appservers" = true ->
  group_complete children "databases" = true ->
  exists inv,
    get_inventory json_loads w __init__ = (Ok (JDict inv), inv) /\
    (forall g group_vars,
       In (g, group_vars)
          [("webservers",
            JDict [("ansible_user", JStr "ubuntu");
                   ("ansible_ssh_private_key_file", JStr "~/.ssh/id_rsa");
                   ("server_type", JStr "webserver")]);
           ("appservers",
            JDict [("ansible_user", JStr "ubuntu");
                   ("ansible_ssh_private_key_file", JStr "~/.ssh/id_rsa");
                   ("server_type", JStr "appserver")]);
           ("databases", JDict [("server_type", JStr "database")])] ->
       dict_get g inv =
       match prebuilt_hosts children g with
       | Some hosts =>
           Some (JDict [("hosts", JList (map JStr (dict_keys hosts)));
                        ("vars", group_vars)])
       | None => None
       end) /\
    dict_get "all" inv =
    match dict_get "vars" all with
    | Some vars => Some (JDict [("vars", vars)])
    | None => None
    end.
Proof.
  intros Hsnap Hentry Hraw Hdec Hall Hchildren Hweb Happ Hdb.
  eexists. split.
  - exact (prebuilt_run w tf entry raw dd all children Hsnap Hentry Hraw
             Hdec Hall Hchildren Hweb Happ Hdb).
  - unfold prebuilt_group.
    split.
    + intros g group_vars [[= <- <-]|[[= <- <-]|[[= <- <-]|[]]]];
        rewrite dict_get_commit by discriminate;
        destruct (prebuilt_hosts children "webservers"),
                 (prebuilt_hosts children "appservers"),
                 (prebuilt_hosts children "databases"),
                 (dict_get "vars" all); reflexivity.
    + rewrite dict_get_commit by discriminate.
      destruct (prebuilt_hosts children "webservers"),
               (prebuilt_hosts children "appservers"),
               (prebuilt_hosts children "databases"),
               (dict_get "vars" all); reflexivity.
Qed.

(** X15. The host variables of the preferred path: each host has the
    variables that its sub-group gives it, copied as they are, and a host
    listed in several sub-groups has those of the last one in the order
    [webservers], [appservers], [databases]. *)
Theorem prebuilt_hostvars_last_group_wins w tf entry raw dd all children :
  get_terraform_output json_loads w (terraform_dir w) = Ok (JDict tf) ->
  dict_get "ansible_inventory" tf = Some (JDict entry) ->
  dict_get "value" entry = Some raw ->
  decoded json_loads raw (JDict dd) ->
  dict_get "all" dd = Some (JDict all) ->
  dict_get "children" all = Some (JDict children) ->
  group_complete children "webservers" = true ->
  group_complete children "appservers" = true ->
  group_complete children "databases" = true ->
  (forall g hosts, prebuilt_hosts children g = Some hosts ->
                   NoDup (dict_keys hosts)) ->
  exists inv hostvars,
    get_inventory json_loads w __init__ = (Ok (JDict inv), inv) /\
    hostvars_of inv = Some hostvars /\
    forall h,
      dict_get h hostvars =
      match dict_get h (hosts_or_empty children "databases") with
      | Some vars => Some vars
      | None =>
          match dict_get h (hosts_or_empty children "appservers") with
          | Some vars => Some vars
          | None => dict_get h (hosts_or_empty children "webservers")
          end
      end.
Proof.
  intros Hsnap Hentry Hraw Hdec Hall Hchildren Hweb Happ Hdb Hnd.
  assert (Hnd' : forall g, NoDup (dict_keys (hosts_or_empty children g))).
  { intros g. unfold hosts_or_empty.
    destruct (prebuilt_hosts children g) as [hosts|] eqn:E;
      [now apply (Hnd g) | constructor]. }
  eexists _, _. split; [|split].
  - exact (prebuilt_run w tf entry raw dd all children Hsnap Hentry Hraw
             Hdec Hall Hchildren Hweb Happ Hdb).
  - apply hostvars_are_of, commit_hostvars.
  - intros h. rewrite app_nil_r, dict_get_assign.
    rewrite !rev_app_distr, !dict_get_app.
    rewrite !dict_get_rev_NoDup by apply Hnd'.
    destruct (dict_get h (hosts_or_empty children "databases"));
      [reflexivity|].
    destruct (dict_get h (hosts_or_empty children "appservers"));
      [reflexivity|].
    now destruct (dict_get h (hosts_or_empty children "webservers")).
Qed.

(** ** Hosts with variables belong to a group *)

Lemma anchors_lift {A : Type} gs (r : result A) : anchors gs (lift r).
Proof.
  exists r, [], []. split; [apply runs_lift|].
  split; [constructor|]. split; [intros g []|]. intros _ h [].
Qed.

Lemma anchors_ret {A : Type} gs (a : A) : anchors gs (ret a).
Proof. apply (anchors_lift gs (Ok a)). Qed.

Lemma anchors_bind_lift {A B : Type} gs (r : result A) (k : A -> M B) :
  (forall a, r = Ok a -> anchors gs (k a)) -> anchors gs (bind (lift r) k).
Proof.
  intros Hk. destruct r as [a|e].
  - rewrite bind_lift_Ok. now apply Hk.
  - exists (Raise e), [], [].
    split; [apply (runs_bind_raise (lift (Raise e)) k e [] []), runs_lift|].
    split; [constructor|]. split; [intros g []|]. intros [b Hb]. discriminate.
Qed.

Lemma anchored_app G1 H1 G2 H2 :
  anchored G1 H1 -> anchored G2 H2 -> anchored (G1 ++ G2) (H1 ++ H2).
Proof.
  intros A1 A2 h Hh. rewrite map_app in Hh. apply in_app_or in Hh.
  destruct Hh as [Hh|Hh].
  - destruct (A1 h Hh) as (g & grp & Hin & Hx). exists g, grp.
    split; [apply in_or_app; now left | exact Hx].
  - destruct (A2 h Hh) as (g & grp & Hin & Hx). exists g, grp.
    split; [apply in_or_app; now right | exact Hx].
Qed.

Lemma anchors_bind {A B : Type} gs1 gs2 (m : M A) (k : A -> M B) :
  (forall g, In g gs1 -> ~ In g gs2) ->
  anchors gs1 m -> (forall a, anchors gs2 (k a)) ->
  anchors (gs1 ++ gs2) (bind m k).
Proof.
  intros Hdis (r1 & G1 & H1 & R1 & N1 & F1 & A1) Hk. destruct r1 as [a|e].
  - destruct (Hk a) as (r2 & G2 & H2 & R2 & N2 & F2 & A2).
    exists r2, (G1 ++ G2), (H1 ++ H2).
    split; [apply (runs_bind_ok m k a r2 G1 H1 G2 H2 R1 R2)|].
    split; [|split].
    + rewrite map_app. apply NoDup_app; auto.
      intros g Hg1 Hg2. apply (Hdis g); auto.
    + intros g Hg. rewrite map_app in Hg. apply in_app_or in Hg.
      apply in_or_app. destruct Hg; auto.
    + intros Hok. apply anchored_app; eauto.
  - exists (Raise e), G1, H1.
    split; [now apply runs_bind_raise|]. split; [exact N1|]. split.
    + intros g Hg. apply in_or_app. left. now apply F1.
    + intros [b Hb]. discriminate.
Qed.

Lemma process_group_anchors g group_vars children :
  g <> "_meta" -> anchors [g] (process_group g group_vars children).
Proof.
  intros Hg. unfold process_group.
  apply anchors_bind_lift. intros present _.
  destruct present; [|apply anchors_ret].
  apply anchors_bind_lift. intros names Hnames.
  apply rbind_Ok in Hnames. destruct Hnames as [group [Hgroup Hnames]].
  apply rbind_Ok in Hnames. destruct Hnames as [hosts [Hhosts Hnames]].
  apply py_keys_Ok in Hnames. destruct Hnames as [hd [-> ->]].
  rewrite Hgroup. simpl. rewrite Hhosts. simpl. rewrite bind_lift_Ok.
  exists (Ok tt),
    [(g, JDict [("hosts", JList (map JStr (dict_keys hd)));
                ("vars", group_vars)])],
    (map (fun x : string * json => let '(h, v) := x in (h, v)) hd).
  split; [|split; [|split]].
  - apply (runs_bind_ok _ _ tt (Ok tt) [(g, _)] [] [] _);
      [now apply runs_set_group|].
    apply runs_for_each. intros [host vars] _. apply runs_set_hostvars.
  - repeat constructor. simpl. tauto.
  - intros g' [<-|[]]. now left.
  - intros _ h Hh. rewrite map_pair_eta in Hh.
    eexists g, _. split; [now left|]. simpl.
    now apply in_map.
Qed.

Lemma extract_servers_anchors output g prefix server_type tf_outputs :
  g <> "_meta" ->
  anchors [g] (extract_servers output g prefix server_type tf_outputs).
Proof.
  intros Hg. unfold extract_servers.
  apply anchors_bind_lift. intros ips _.
  destruct (truthy ips); [|apply anchors_ret].
  apply anchors_bind_lift. intros n Hn.
  destruct (py_len_iter _ _ Hn) as [elems [Helems Hlen]].
  rewrite Helems, bind_lift_Ok.
  exists (Ok tt), [(g, servers_group prefix server_type n)],
         (servers_hostvars prefix elems).
  split; [|split; [|split]].
  - apply (runs_bind_ok _ _ tt (Ok tt) [(g, _)] [] [] _);
      [now apply runs_set_group|].
    apply runs_for_each. intros [i ip] _. apply runs_set_hostvars.
  - repeat constructor. simpl. tauto.
  - intros g' [<-|[]]. now left.
  - intros _ h Hh. rewrite servers_hostvars_fst, Hlen in Hh.
    apply in_map_iff in Hh. destruct Hh as [i [<- Hi]].
    eexists g, _. split; [now left|]. simpl.
    apply (in_map (fun i => JStr (server_name prefix i))). exact Hi.
Qed.

Lemma extract_database_anchors tf_outputs :
  anchors ["databases"] (extract_database tf_outputs).
Proof.
  unfold extract_database.
  apply anchors_bind_lift. intros db_endpoint _.
  destruct (truthy db_endpoint); [|apply anchors_ret].
  match goal with
  | |- anchors _ (bind (set_group _ ?V) (fun _ => bind (lift ?R) _)) =>
      destruct R as [host_vars|e] eqn:ER;
      [ exists (Ok tt), [("databases", V)], [("database", host_vars)]
      | exists (Raise e), [("databases", V)], [] ]
  end.
  - split; [|split; [|split]].
    + apply (runs_bind_ok _ _ tt (Ok tt) [(_, _)] [] [] [(_, _)]);
        [apply runs_set_group; discriminate|].
      rewrite bind_lift_Ok. apply runs_set_hostvars.
    + repeat constructor. simpl. tauto.
    + intros g' [<-|[]]. now left.
    + intros _ h [<-|[]]. eexists "databases", _. split; [now left|].
      simpl. now left.
  - split; [|split; [|split]].
    + apply (runs_bind_ok _ _ tt (Raise e) [(_, _)] [] [] []);
        [apply runs_set_group; discriminate|].
      apply runs_bind_raise, runs_lift.
    + repeat constructor. simpl. tauto.
    + intros g' [<-|[]]. now left.
    + intros [a Ha]. discriminate.
Qed.

Lemma add_common_vars_anchors tf_outputs :
  anchors ["all"] (add_common_vars tf_outputs).
Proof.
  unfold add_common_vars.
  apply anchors_bind_lift. intros common _.
  exists (Ok tt), [("all", JDict [("vars", common)])], [].
  split; [apply runs_set_group; discriminate|].
  split; [repeat constructor; simpl; tauto|].
  split; [intros g' [<-|[]]; now left | intros _ h []].
Qed.

Ltac disjoint_names :=
  simpl; intros g Hg Hg';
  repeat match goal with
         | H : _ \/ _ |- _ => destruct H
         | H : False |- _ => destruct H
         end; subst; discriminate.

Lemma _parse_individual_outputs_anchors tf_outputs :
  anchors ["webservers"; "appservers"; "databases"; "all"]
    (_parse_individual_outputs tf_outputs).
Proof.
  unfold _parse_individual_outputs.
  apply (anchors_bind ["webservers"] ["appservers"; "databases"; "all"]);
    [disjoint_names | apply extract_servers_anchors; discriminate | intros _].
  apply (anchors_bind ["appservers"] ["databases"; "all"]);
    [disjoint_names | apply extract_servers_anchors; discriminate | intros _].
  apply (anchors_bind ["databases"] ["all"]);
    [disjoint_names | apply extract_database_anchors | intros _].
  apply add_common_vars_anchors.
Qed.

Lemma parse_prebuilt_anchors entry :
  anchors ["webservers"; "appservers"; "databases"; "all"]
    (parse_prebuilt json_loads entry).
Proof.
  unfold parse_prebuilt.
  apply anchors_bind_lift. intros inventory_data _.
  apply anchors_bind_lift. intros shaped _.
  destruct shaped; [|apply anchors_ret].
  apply anchors_bind_lift. intros children _.
  apply (anchors_bind ["webservers"] ["appservers"; "databases"; "all"]);
    [disjoint_names | apply process_group_anchors; discriminate | intros _].
  apply (anchors_bind ["appservers"] ["databases"; "all"]);
    [disjoint_names | apply process_group_anchors; discriminate | intros _].
  apply (anchors_bind ["databases"] ["all"]);
    [disjoint_names | apply process_group_anchors; discriminate | intros _].
  apply anchors_bind_lift. intros has_vars _.
  destruct has_vars; [|apply anchors_ret].
  apply anchors_bind_lift. intros vars _.
  exists (Ok tt), [("all", JDict [("vars", vars)])], [].
  split; [apply runs_set_group; discriminate|].
  split; [repeat constructor; simpl; tauto|].
  split; [intros g' [<-|[]]; simpl; tauto | intros _ h []].
Qed.

Lemma parse_ansible_inventory_anchors tf_outputs :
  anchors ["webservers"; "appservers"; "databases"; "all"]
    (parse_ansible_inventory json_loads tf_outputs).
Proof.
  unfold parse_ansible_inventory.
  apply anchors_bind_lift. intros designated _.
  destruct designated.
  - apply anchors_bind_lift. intros entry _. apply parse_prebuilt_anchors.
  - apply _parse_individual_outputs_anchors.
Qed.

Lemma group_hosts_In x grp :
  In x (group_hosts grp) ->
  exists group hosts,
    grp = JDict group /\ dict_get "hosts" group = Some (JList hosts) /\
    In x hosts.
Proof.
  destruct grp as [| | | | | |group]; simpl; try tauto.
  destruct (dict_get "hosts" group) as [[| | | | |hosts|]|] eqn:E; simpl;
    try tauto.
  intros Hx. now exists group, hosts.
Qed.

(** X16. No host has variables without belonging to a group: in the
    inventory that [get_inventory] returns on a new instance, every key of
    [_meta.hostvars] is named in the ["hosts"] list of a group of the
    inventory. *)
Theorem hostvars_have_groups w doc inv :
  get_inventory json_loads w __init__ = (Ok doc, inv) ->
  exists hostvars,
    hostvars_of inv = Some hostvars /\
    forall h, dict_mem h hostvars = true ->
      exists g group hosts,
        dict_get g inv = Some (JDict group) /\
        dict_get "hosts" group = Some (JList hosts) /\
        In (JStr h) hosts.
Proof.
  intros Hrun. rewrite get_inventory_unfold in Hrun.
  destruct (get_terraform_output json_loads w (terraform_dir w))
    as [tf|e]; [|discriminate].
  destruct (truthy tf).
  - destruct (parse_ansible_inventory_anchors tf)
      as (r & G & H & [HG R] & Hnd & _ & Hanch).
    rewrite (R __init__ [] hostvars_are_init) in Hrun.
    destruct r as [[]|e]; [|discriminate]. injection Hrun as _ <-.
    exists (assign H []). split; [apply hostvars_are_of, commit_hostvars|].
    intros h Hh. apply dict_mem_assign in Hh.
    destruct Hh as [Hh|Hh]; [|discriminate].
    destruct (Hanch (ex_intro _ tt eq_refl) h Hh) as (g & grp & Hin & Hx).
    destruct (group_hosts_In _ _ Hx) as (group & hosts & -> & Hhosts & Hx').
    exists g, group, hosts. split; [|split; assumption].
    rewrite dict_get_commit.
    + now apply dict_get_assign_NoDup.
    + rewrite Forall_forall in HG. apply (HG _ Hin).
  - injection Hrun as _ <-. exists []. split; [reflexivity|].
    intros h Hh. discriminate.
Qed.

(** ** An exception after a group is written *)

Lemma extract_database_not_string tf v :
  output_value tf "database_endpoint" JNull = Some v ->
  truthy v = true ->
  (forall ep, v <> JStr ep) ->
  runs (extract_database (JDict tf)) (Raise AttributeError)
    [("databases", databases_group)] [].
Proof.
  intros Hv Ht Hstr. unfold extract_database.
  rewrite output_value_get, Hv, bind_lift_Ok. cbv beta. rewrite Ht.
  apply (runs_bind_ok _ _ tt (Raise AttributeError)
           [("databases", databases_group)] [] [] []);
    [apply runs_set_group; discriminate|].
  replace (py_split v ":") with (@Raise (list string) AttributeError)
    by (destruct v; try reflexivity; now elim (Hstr s)).
  apply runs_bind_raise, runs_lift.
Qed.

(** X17. The fallback writes the group [databases] before it reads the
    endpoint as a string: when the address blocks run to their end and
    [database_endpoint.value] is truthy and not a string, [get_inventory]
    raises [AttributeError], and the instance is left with a group
    [databases] that lists the host ["database"] while [_meta.hostvars] has
    no entry for it. The hosts of the groups are covered in the inventories
    that are returned, not in what an exception leaves behind. *)
Theorem database_group_without_host w tf v :
  get_terraform_output json_loads w (terraform_dir w) = Ok (JDict tf) ->
  tf <> [] ->
  dict_get "ansible_inventory" tf = None ->
  servers_complete tf "web_instance_public_ips" = true ->
  servers_complete tf "app_instance_private_ips" = true ->
  output_value tf "database_endpoint" JNull = Some v ->
  truthy v = true ->
  (forall ep, v <> JStr ep) ->
  exists inv hostvars,
    get_inventory json_loads w __init__ = (Raise AttributeError, inv) /\
    dict_get "databases" inv =
      Some (JDict [("hosts", JList [JStr "database"]);
                   ("vars", JDict [("server_type", JStr "database")])]) /\
    hostvars_of inv = Some hostvars /\
    dict_get "database" hostvars = None.
Proof.
  intros Hsnap Hne Hno Hweb Happ Hv Ht Hstr.
  pose proof (extract_database_not_string tf v Hv Ht Hstr) as Rdb.
  pose proof (runs_bind_raise _ (fun _ => add_common_vars (JDict tf)) _ _ _ Rdb)
    as Rtail.
  destruct (fallback_prefix tf _ _ _ _ Hweb Happ Rtail)
    as (Gp & Hp & Rall & HGp & HHp).
  pose proof (get_inventory_fallback w tf _ _ _ Hsnap Hne Hno Rall) as Hrun.
  eexists _, _. split; [exact Hrun|]. split; [|split].
  - rewrite dict_get_commit by discriminate.
    rewrite assign_app. simpl. apply dict_get_set_same.
  - apply hostvars_are_of, commit_hostvars.
  - rewrite app_nil_r. rewrite dict_get_assign_other; [reflexivity|].
    apply (prefix_not_database _ HHp).
Qed.

End Script.

(** * The properties on the sample snapshots *)

(** C1 when [terraform] exits with a non-zero status. *)
Lemma get_inventory_empty_snapshot_witness :
  get_terraform_output sample_loads terraform_fails
    (terraform_dir terraform_fails) = Ok (JDict []) /\
  get_inventory sample_loads terraform_fails __init__ =
  (Ok (JDict [("all", JDict [("hosts", JList []); ("vars", JDict [])]);
              ("_meta", JDict [("hostvars", JDict [])])]),
   [("all", JDict [("hosts", JList []); ("vars", JDict [])]);
    ("_meta", JDict [("hostvars", JDict [])])]).
Proof.
  split; [reflexivity|].
  apply (get_inventory_empty_snapshot sample_loads terraform_fails __init__).
  reflexivity.
Defined.

(** C2 on the flat sample, whose inventory has the group [webservers]. *)
Lemma hosts_have_hostvars_witness :
  exists doc s',
    get_inventory sample_loads (terraform_prints "flat") __init__ = (Ok doc, s') /\
    exists inv hostvars,
      doc = JDict inv /\
      hostvars_of inv = Some hostvars /\
      dict_get "webservers" inv <> None /\
      forall g group hosts x,
        dict_get g inv = Some (JDict group) ->
        dict_get "hosts" group = Some (JList hosts) ->
        In x hosts ->
        exists h, x = JStr h /\ dict_mem h hostvars = true.
Proof.
  eexists _, _. split; [vm_compute; reflexivity|].
  destruct (hosts_have_hostvars sample_loads (terraform_prints "flat") _ _
              eq_refl) as (inv & hv & Hdoc & Hhv & Hcov).
  exists inv, hv. injection Hdoc as <-.
  repeat split; [exact Hhv | discriminate | exact Hcov].
Defined.

(** C3 on the flat sample: an unknown host and a known one. *)
Lemma get_host_lookup_witness :
  exists doc inv,
    get_inventory sample_loads (terraform_prints "flat") __init__ = (Ok doc, inv) /\
    get_host sample_loads (terraform_prints "flat") "web-3" __init__ =
      (Ok (JDict []), inv) /\
    get_host sample_loads (terraform_prints "flat") "web-2" __init__ =
      (Ok (JDict [("ansible_host", JStr "5.6.7.8");
                  ("ansible_user", JStr "ubuntu")]), inv).
Proof.
  eexists _, _. split; [vm_compute; reflexivity|].
  destruct (get_host_lookup sample_loads (terraform_prints "flat") "web-3" _ _
              eq_refl) as (hv3 & _ & Hhv3 & Hnone & _).
  destruct (get_host_lookup sample_loads (terraform_prints "flat") "web-2" _ _
              eq_refl) as (hv2 & _ & Hhv2 & _ & Hsome).
  injection Hhv3 as <-. injection Hhv2 as <-.
  split; [exact (Hnone eq_refl) | exact (Hsome _ eq_refl)].
Defined.

(** C4: the pre-built sample with and without flat outputs beside it. *)
Lemma designated_entry_precedence_witness :
  (get_terraform_output sample_loads (terraform_prints "prebuilt")
     (terraform_dir (terraform_prints "prebuilt")) = Ok (JDict prebuilt_outputs) /\
   get_terraform_output sample_loads (terraform_prints "mixed")
     (terraform_dir (terraform_prints "mixed")) = Ok (JDict mixed_outputs) /\
   dict_get "ansible_inventory" prebuilt_outputs = Some (value_of prebuilt_value) /\
   dict_get "ansible_inventory" mixed_outputs = Some (value_of prebuilt_value) /\
   dict_get "web_instance_public_ips" mixed_outputs <> None) /\
  get_inventory sample_loads (terraform_prints "prebuilt") __init__ =
  get_inventory sample_loads (terraform_prints "mixed") __init__.
Proof.
  split; [repeat split; try reflexivity; discriminate|].
  apply (designated_entry_precedence sample_loads
           (terraform_prints "prebuilt") (terraform_prints "mixed")
           prebuilt_outputs mixed_outputs (value_of prebuilt_value) __init__);
    reflexivity.
Defined.

(** C5 on the two addresses ["1.2.3.4"] and ["5.6.7.8"]. *)
Lemma fallback_webservers_witness :
  (get_terraform_output sample_loads (terraform_prints "flat")
     (terraform_dir (terraform_prints "flat")) = Ok (JDict flat_outputs) /\
   dict_get "ansible_inventory" flat_outputs = None /\
   dict_get "web_instance_public_ips" flat_outputs =
     Some (value_of (JList [JStr "1.2.3.4"; JStr "5.6.7.8"]))) /\
  let inv := snd (get_inventory sample_loads (terraform_prints "flat") __init__) in
  dict_get "webservers" inv =
    Some (JDict [("hosts", JList [JStr "web-1"; JStr "web-2"]);
                 ("vars", JDict [("ansible_user", JStr "ubuntu");
                                 ("server_type", JStr "webserver")])]) /\
  exists hostvars,
    hostvars_of inv = Some hostvars /\
    dict_get "web-1" hostvars =
      Some (JDict [("ansible_host", JStr "1.2.3.4");
                   ("ansible_user", JStr "ubuntu")]).
Proof.
  split; [repeat split; reflexivity|].
  destruct (fallback_webservers sample_loads (terraform_prints "flat")
              flat_outputs [("value", JList [JStr "1.2.3.4"; JStr "5.6.7.8"])]
              [JStr "1.2.3.4"; JStr "5.6.7.8"]
              eq_refl eq_refl eq_refl eq_refl)
    as (_ & (hv & Hhv & Hweb) & _).
  destruct (Hweb ltac:(discriminate)) as [Hgroup Hhosts].
  split; [exact Hgroup|].
  exists hv. split; [exact Hhv | exact (Hhosts 0 _ eq_refl)].
Defined.

(** C8: the list operation twice on one instance. *)
Lemma list_deterministic_witness :
  get_terraform_output sample_loads (terraform_prints "mixed")
    (terraform_dir (terraform_prints "mixed")) = Ok (JDict mixed_outputs) /\
  get_inventory sample_loads (terraform_prints "mixed")
    (snd (get_inventory sample_loads (terraform_prints "mixed") __init__)) =
  get_inventory sample_loads (terraform_prints "mixed") __init__.
Proof.
  split; [reflexivity|].
  apply (list_deterministic sample_loads (terraform_prints "mixed")
           (terraform_prints "mixed") (JDict mixed_outputs) eq_refl eq_refl).
Defined.

(** Against C6 as the specification words it, without the condition on the
    address blocks: with a number where the web addresses are expected,
    [len] raises [TypeError] before the database block is reached, and the
    endpoint, a non-empty string, gives neither group nor host. *)
Lemma database_not_reached :
  get_terraform_output sample_loads (terraform_prints "number")
    (terraform_dir (terraform_prints "number")) = Ok (JDict number_outputs) /\
  dict_get "ansible_inventory" number_outputs = None /\
  output_value number_outputs "database_endpoint" JNull =
    Some (JStr "db.example.com:5432") /\
  let run := get_inventory sample_loads (terraform_prints "number") __init__ in
  fst run = Raise TypeError /\
  dict_get "databases" (snd run) = None /\
  hostvars_of (snd run) = Some [].
Proof. repeat split; reflexivity. Qed.

(** C6 on the endpoint ["db.example.com:5432"] without engine or port. *)
Lemma fallback_database_witness :
  (get_terraform_output sample_loads (terraform_prints "flat")
     (terraform_dir (terraform_prints "flat")) = Ok (JDict flat_outputs) /\
   dict_get "ansible_inventory" flat_outputs = None /\
   servers_complete flat_outputs "web_instance_public_ips" = true /\
   servers_complete flat_outputs "app_instance_private_ips" = true /\
   output_value flat_outputs "database_endpoint" JNull =
     Some (JStr "db.example.com:5432")) /\
  let inv := snd (get_inventory sample_loads (terraform_prints "flat") __init__) in
  dict_mem "databases" inv = true /\
  dict_get "databases" inv =
    Some (JDict [("hosts", JList [JStr "database"]);
                 ("vars", JDict [("server_type", JStr "database")])]) /\
  exists hostvars host rest,
    hostvars_of inv = Some hostvars /\
    "db.example.com:5432" = (host ++ rest)%string /\
    (rest = EmptyString \/ exists r, rest = String ":" r) /\
    (forall c, In c (list_ascii_of_string host) -> c <> ":"%char) /\
    dict_get "database" hostvars =
      Some (JDict [("ansible_host", JStr host);
                   ("db_engine", JStr "postgres");
                   ("db_port", JInt 5432)]).
Proof.
  split; [repeat split; reflexivity|].
  destruct (fallback_database sample_loads (terraform_prints "flat")
              flat_outputs (JStr "db.example.com:5432")
              eq_refl eq_refl eq_refl eq_refl eq_refl)
    as (_ & Hiff & Hhost).
  split; [now apply Hiff|].
  apply (Hhost "db.example.com:5432" (JStr "postgres") (JInt 5432));
    [reflexivity | discriminate | reflexivity | reflexivity].
Defined.

(** Against C7 as the specification words it: the ["vars"] of an ["all"]
    without ["children"] is not copied, and the inventory has no ["all"]. *)
Lemma vars_without_children_not_copied :
  get_terraform_output sample_loads (terraform_prints "vars_only")
    (terraform_dir (terraform_prints "vars_only")) =
    Ok (JDict vars_only_outputs) /\
  dict_get "ansible_inventory" vars_only_outputs =
    Some (value_of
            (JDict [("all",
                     JDict [("vars", JDict [("environment", JStr "dev")])])])) /\
  get_inventory sample_loads (terraform_prints "vars_only") __init__ =
    (Ok (JDict [("_meta", JDict [("hostvars", JDict [])])]),
     [("_meta", JDict [("hostvars", JDict [])])]) /\
  dict_get "all"
    (snd (get_inventory sample_loads (terraform_prints "vars_only") __init__))
  = None.
Proof. repeat split; reflexivity. Qed.

(** C7 on the pre-built sample. *)
Lemma prebuilt_all_vars_witness :
  (get_terraform_output sample_loads (terraform_prints "mixed")
     (terraform_dir (terraform_prints "mixed")) = Ok (JDict mixed_outputs) /\
   dict_get "ansible_inventory" mixed_outputs = Some (value_of prebuilt_value) /\
   decoded sample_loads prebuilt_value prebuilt_value) /\
  exists inv,
    get_inventory sample_loads (terraform_prints "mixed") __init__ =
      (Ok (JDict inv), inv) /\
    dict_get "all" inv = Some (JDict [("vars", JDict [("environment", JStr "dev")])]).
Proof.
  split; [repeat split; reflexivity|].
  eapply (prebuilt_all_vars sample_loads (terraform_prints "mixed")
            mixed_outputs [("value", prebuilt_value)] prebuilt_value);
    reflexivity.
Defined.

(** Against C9 as the specification words it: with a string where the mapping
    of [infrastructure_info] is expected, [.get] raises [AttributeError]
    and ["all"] is not set. *)
Lemma common_vars_not_set :
  get_terraform_output sample_loads (terraform_prints "info_string")
    (terraform_dir (terraform_prints "info_string")) =
    Ok (JDict info_string_outputs) /\
  info_string_outputs <> [] /\
  dict_get "ansible_inventory" info_string_outputs = None /\
  let run := get_inventory sample_loads (terraform_prints "info_string")
               __init__ in
  fst run = Raise AttributeError /\
  dict_get "all" (snd run) = None.
Proof. repeat split; try reflexivity. discriminate. Qed.

(** C9 on the flat sample, which has no [infrastructure_info]. *)
Lemma fallback_common_vars_witness :
  (get_terraform_output sample_loads (terraform_prints "flat")
     (terraform_dir (terraform_prints "flat")) = Ok (JDict flat_outputs) /\
   flat_outputs <> [] /\
   dict_get "ansible_inventory" flat_outputs = None /\
   servers_complete flat_outputs "web_instance_public_ips" = true /\
   servers_complete flat_outputs "app_instance_private_ips" = true /\
   database_complete flat_outputs = true /\
   output_value flat_outputs "infrastructure_info" (JDict []) = Some (JDict [])) /\
  exists inv,
    get_inventory sample_loads (terraform_prints "flat") __init__ =
      (Ok (JDict inv), inv) /\
    dict_get "all" inv =
      Some (JDict [("vars",
                    JDict [("environment", JStr "unknown");
                           ("project_name", JStr "iac-solution");
                           ("aws_region", JStr "us-west-2")])]).
Proof.
  split; [repeat split; try reflexivity; discriminate|].
  apply (fallback_common_vars sample_loads (terraform_prints "flat")
           flat_outputs []); try reflexivity. discriminate.
Defined.

(** Against C10 as the specification words it: a value whose ["all"] is [null]
    has no ["all"] with a ["children"] mapping, and on it
    ['children' in None] raises [TypeError]. *)
Lemma null_all_raises :
  get_terraform_output sample_loads (terraform_prints "null_all")
    (terraform_dir (terraform_prints "null_all")) =
    Ok (JDict null_all_outputs) /\
  dict_get "ansible_inventory" null_all_outputs =
    Some (value_of (JDict [("all", JNull)])) /\
  get_inventory sample_loads (terraform_prints "null_all") __init__ =
    (Raise TypeError, [("_meta", JDict [("hostvars", JDict [])])]).
Proof. repeat split; reflexivity. Qed.

(** C10 on a pre-built value without ["all"], beside a flat output. *)
Lemma prebuilt_unshaped_witness :
  (get_terraform_output sample_loads (terraform_prints "no_all")
     (terraform_dir (terraform_prints "no_all")) = Ok (JDict no_all_outputs) /\
   dict_get "ansible_inventory" no_all_outputs =
     Some (value_of (JDict [("hosts", JList [])])) /\
   unshaped (JDict [("hosts", JList [])]) = true) /\
  get_inventory sample_loads (terraform_prints "no_all") __init__ =
  (Ok (JDict [("_meta", JDict [("hostvars", JDict [])])]),
   [("_meta", JDict [("hostvars", JDict [])])]).
Proof.
  split; [repeat split; reflexivity|].
  apply (prebuilt_unshaped sample_loads (terraform_prints "no_all")
           no_all_outputs [("value", JDict [("hosts", JList [])])]
           (JDict [("hosts", JList [])]) (JDict [("hosts", JList [])]));
    reflexivity.
Defined.

(** * The further properties on the sample snapshots *)


(** X2 on the world without [terraform]. *)
Lemma not_started_raises_witness :
  terraform_output_json terraform_missing (terraform_dir terraform_missing) =
    NotStarted /\
  get_inventory more_loads terraform_missing __init__ =
    (Raise OSError, __init__) /\
  main more_loads terraform_missing
    {| args_list := true; args_host := Some "web-1" |} = Raise OSError.
Proof.
  split; [reflexivity|].
  destruct (not_started_raises more_loads terraform_missing __init__
              "web-1" "w" "eb-1" eq_refl) as (Hrun & _ & Hmain & _).
  split; [exact Hrun | exact Hmain].
Defined.

(** X3 when [terraform] prints a list of names. *)
Lemma non_object_outputs_raise_witness :
  get_terraform_output more_loads (terraform_prints "list")
    (terraform_dir (terraform_prints "list")) =
    Ok (JList [JStr "web_instance_public_ips"]) /\
  exists e,
    (e = TypeError \/ e = AttributeError) /\
    forall s, get_inventory more_loads (terraform_prints "list") s =
              (Raise e, s).
Proof.
  split; [reflexivity|].
  apply (non_object_outputs_raise more_loads (terraform_prints "list")
           (JList [JStr "web_instance_public_ips"]));
    [reflexivity | reflexivity | discriminate].
Defined.



(** X6 on a designated entry without ["value"]. *)
Lemma entry_without_value_raises_witness :
  (dict_get "ansible_inventory" valueless_outputs =
     Some (JDict [("sensitive", JBool false)]) /\
   dict_get "web_instance_public_ips" valueless_outputs <> None) /\
  get_inventory more_loads (terraform_prints "valueless") __init__ =
    (Raise (KeyError "value"), __init__).
Proof.
  split; [repeat split; try reflexivity; discriminate|].
  apply (entry_without_value_raises more_loads (terraform_prints "valueless")
           valueless_outputs [("sensitive", JBool false)] __init__);
    reflexivity.
Defined.

(** X7: [--host] with an empty operand prints the usage text, and
    [--list] makes the operand of [--host] irrelevant. *)
Lemma main_dispatch_witness :
  main more_loads (terraform_prints "flat")
    {| args_list := false; args_host := Some EmptyString |} = Ok Help /\
  main more_loads (terraform_prints "flat")
    {| args_list := true; args_host := Some "web-1" |} =
  main more_loads (terraform_prints "flat")
    {| args_list := true; args_host := None |}.
Proof.
  split.
  - apply (main_dispatch more_loads (terraform_prints "flat")
             {| args_list := false; args_host := Some EmptyString |}).
    split; [reflexivity | now right].
  - apply (main_dispatch more_loads (terraform_prints "flat")
             {| args_list := true; args_host := Some "web-1" |}).
    reflexivity.
Defined.

(** X8 on the flat sample and the host ["web-2"]. *)
Lemma main_host_agrees_with_list_witness :
  exists doc,
    main more_loads (terraform_prints "flat")
      {| args_list := true; args_host := None |} = Ok (Dumped doc) /\
    main more_loads (terraform_prints "flat")
      {| args_list := false; args_host := Some "web-2" |} =
    Ok (Dumped (JDict [("ansible_host", JStr "5.6.7.8");
                       ("ansible_user", JStr "ubuntu")])).
Proof.
  eexists. split; [vm_compute; reflexivity|].
  destruct (main_host_agrees_with_list more_loads (terraform_prints "flat")
              "w" "eb-2") as [Hlist _].
  destruct (Hlist _ eq_refl) as (inv & hv & Hdoc & Hhv & Hhost).
  injection Hdoc as <-. injection Hhv as <-. exact Hhost.
Defined.

(** X9 on the pre-built sample. *)
Lemma groups_within_vocabulary_witness :
  exists r s',
    get_inventory more_loads (terraform_prints "prebuilt") __init__ = (r, s') /\
    dict_keys s' = ["_meta"; "webservers"; "all"] /\
    forall k, In k (dict_keys s') ->
      k = "_meta" \/ k = "webservers" \/ k = "appservers" \/
      k = "databases" \/ k = "all".
Proof.
  eexists _, _. split; [vm_compute; reflexivity|]. split; [reflexivity|].
  apply (groups_within_vocabulary more_loads (terraform_prints "prebuilt")
           _ _ eq_refl).
Defined.


(** X11: the flat sample, then the pre-built sample on the same
    instance; the hosts ["web-1"], ["web-2"] and ["database"] stay. *)
Lemma reused_instance_keeps_entries_witness :
  exists s hv r s' hv',
    get_inventory more_loads (terraform_prints "flat") __init__ = (r, s) /\
    hostvars_are s hv /\
    dict_keys hv = ["web-1"; "web-2"; "database"] /\
    snd (get_inventory more_loads (terraform_prints "prebuilt") s) = s' /\
    hostvars_are s' hv' /\
    dict_keys s' = dict_keys s /\
    dict_keys hv' = dict_keys hv ++ ["web-a"].
Proof.
  eexists _, _, _, _, _.
  split; [vm_compute; reflexivity|].
  split; [reflexivity|]. split; [reflexivity|]. split; [reflexivity|].
  destruct (reused_instance_keeps_entries more_loads
              (terraform_prints "prebuilt") (JDict prebuilt_outputs)
              (snd (get_inventory more_loads (terraform_prints "flat")
                      __init__))
              _ _ _ eq_refl eq_refl eq_refl eq_refl)
    as (hv' & new_groups & new_hosts & Hhv' & Hgroups & Hhosts).
  split; [reflexivity|]. split; reflexivity.
Defined.

(** X12: the same two runs; the groups found and written are covered. *)
Lemma reused_instance_hosts_covered_witness :
  exists s hv doc s',
    hostvars_are s hv /\
    get_inventory more_loads (terraform_prints "prebuilt") s = (Ok doc, s') /\
    doc = JDict s' /\
    exists hv', hostvars_of s' = Some hv' /\
      forall g group hosts x,
        dict_get g s' = Some (JDict group) ->
        dict_get "hosts" group = Some (JList hosts) ->
        In x hosts ->
        exists h, x = JStr h /\ dict_mem h hv' = true.
Proof.
  exists (snd (get_inventory more_loads (terraform_prints "flat") __init__)).
  eexists _, _, _.
  split; [reflexivity|]. split; [vm_compute; reflexivity|].
  apply (reused_instance_hosts_covered more_loads
           (terraform_prints "prebuilt")
           (snd (get_inventory more_loads (terraform_prints "flat") __init__))
           _ _ _ eq_refl); [|reflexivity].
  intros g grp x Hg Hx. vm_compute in Hg.
  repeat match type of Hg with
         | (if ?b then _ else _) = _ => destruct b
         end;
    try discriminate; injection Hg as <-; simpl in Hx;
    repeat match goal with
           | H : _ \/ _ |- _ => destruct H as [<-|H]
           | H : False |- _ => destruct H
           end;
    eexists; split; reflexivity.
Defined.


(** X14 on the sample with a shared host: [webservers] has the fixed
    variables, not those it declares, and there is no [appservers]. *)
Lemma prebuilt_groups_witness :
  (dict_get "ansible_inventory" shared_outputs =
     Some (value_of (JDict [("all",
                             JDict [("children", JDict shared_children)])])) /\
   group_complete shared_children "webservers" = true /\
   group_complete shared_children "appservers" = true /\
   group_complete shared_children "databases" = true) /\
  exists inv,
    get_inventory more_loads (terraform_prints "shared") __init__ =
      (Ok (JDict inv), inv) /\
    dict_get "webservers" inv =
      Some (JDict [("hosts", JList [JStr "web-a"; JStr "shared"]);
                   ("vars",
                    JDict [("ansible_user", JStr "ubuntu");
                           ("ansible_ssh_private_key_file",
                            JStr "~/.ssh/id_rsa");
                           ("server_type", JStr "webserver")])]) /\
    dict_get "appservers" inv = None /\
    dict_get "all" inv = None.
Proof.
  split; [repeat split; reflexivity|].
  destruct (prebuilt_groups more_loads (terraform_prints "shared")
              shared_outputs
              [("value", JDict [("all",
                                 JDict [("children", JDict shared_children)])])]
              (JDict [("all", JDict [("children", JDict shared_children)])])
              [("all", JDict [("children", JDict shared_children)])]
              [("children", JDict shared_children)] shared_children
              eq_refl eq_refl eq_refl eq_refl eq_refl eq_refl
              eq_refl eq_refl eq_refl)
    as (inv & Hrun & Hgroups & Hall).
  exists inv. split; [exact Hrun|]. split; [|split].
  - apply (Hgroups "webservers"). now left.
  - apply (Hgroups "appservers"
             (JDict [("ansible_user", JStr "ubuntu");
                     ("ansible_ssh_private_key_file", JStr "~/.ssh/id_rsa");
                     ("server_type", JStr "appserver")])).
    right. now left.
  - exact Hall.
Defined.

(** X15 on the same sample: ["shared"] has the variables of [databases]. *)
Lemma prebuilt_hostvars_last_group_wins_witness :
  (prebuilt_hosts shared_children "webservers" =
     Some [("web-a", JDict [("ansible_host", JStr "10.0.0.1")]);
           ("shared", JDict [("role", JStr "web")])] /\
   prebuilt_hosts shared_children "databases" =
     Some [("shared", JDict [("role", JStr "db")])]) /\
  exists inv hostvars,
    get_inventory more_loads (terraform_prints "shared") __init__ =
      (Ok (JDict inv), inv) /\
    hostvars_of inv = Some hostvars /\
    dict_get "shared" hostvars = Some (JDict [("role", JStr "db")]) /\
    dict_get "web-a" hostvars = Some (JDict [("ansible_host", JStr "10.0.0.1")]).
Proof.
  split; [split; reflexivity|].
  destruct (prebuilt_hostvars_last_group_wins more_loads
              (terraform_prints "shared") shared_outputs
              [("value", JDict [("all",
                                 JDict [("children", JDict shared_children)])])]
              (JDict [("all", JDict [("children", JDict shared_children)])])
              [("all", JDict [("children", JDict shared_children)])]
              [("children", JDict shared_children)] shared_children
              eq_refl eq_refl eq_refl eq_refl eq_refl eq_refl
              eq_refl eq_refl eq_refl)
    as (inv & hv & Hrun & Hhv & Hget).
  - intros g hosts. unfold prebuilt_hosts. simpl.
    destruct (String.eqb g "webservers").
    + intros [= <-]. repeat constructor; simpl; intuition discriminate.
    + destruct (String.eqb g "databases"); [|discriminate].
      intros [= <-]. repeat constructor; simpl; tauto.
  - exists inv, hv. split; [exact Hrun|]. split; [exact Hhv|].
    split; [exact (Hget "shared") | exact (Hget "web-a")].
Defined.

(** X16 on the flat sample: three hosts, each in its group. *)
Lemma hostvars_have_groups_witness :
  exists doc inv hostvars,
    get_inventory more_loads (terraform_prints "flat") __init__ = (Ok doc, inv) /\
    hostvars_of inv = Some hostvars /\
    dict_keys hostvars = ["web-1"; "web-2"; "database"] /\
    forall h, dict_mem h hostvars = true ->
      exists g group hosts,
        dict_get g inv = Some (JDict group) /\
        dict_get "hosts" group = Some (JList hosts) /\
        In (JStr h) hosts.
Proof.
  eexists _, _, _. split; [vm_compute; reflexivity|].
  destruct (hostvars_have_groups more_loads (terraform_prints "flat") _ _
              eq_refl) as (hv & Hhv & Hgroups).
  injection Hhv as <-.
  split; [reflexivity|]. split; [reflexivity | exact Hgroups].
Defined.

(** X17 on a list where the endpoint string is expected. *)
Lemma database_group_without_host_witness :
  (dict_get "ansible_inventory" endpoint_list_outputs = None /\
   servers_complete endpoint_list_outputs "web_instance_public_ips" = true /\
   servers_complete endpoint_list_outputs "app_instance_private_ips" = true /\
   output_value endpoint_list_outputs "database_endpoint" JNull =
     Some (JList [JStr "db.example.com:5432"])) /\
  exists inv hostvars,
    get_inventory more_loads (terraform_prints "endpoint_list") __init__ =
      (Raise AttributeError, inv) /\
    dict_get "databases" inv =
      Some (JDict [("hosts", JList [JStr "database"]);
                   ("vars", JDict [("server_type", JStr "database")])]) /\
    hostvars_of inv = Some hostvars /\
    dict_get "database" hostvars = None.
Proof.
  split; [repeat split; reflexivity|].
  apply (database_group_without_host more_loads
           (terraform_prints "endpoint_list") endpoint_list_outputs
           (JList [JStr "db.example.com:5432"]));
    try reflexivity; discriminate.
Defined.
